(** * LISA multipredictor: a shallow embedding of the training orchestrators

    The two scripts [lisa/modeling/multipredictor.py] (results tracked with
    mlflow) and [lisa/modeling/remote_multipredictor.py] (results written to a
    local directory) train an activity classifier and two regressors.  This
    file embeds their functions [classifier], [regressor],
    [_regressor_script], [_feature_importances] and the stage structure of
    [main], and proves properties of them.

    Python dictionaries are objects with identity: they live in a heap and
    are passed by reference.  Exceptions are values of [exn]; a computation
    either returns or raises, and keeps the heap it reached. *)

From Stdlib Require Import ZArith QArith PrimFloat Sorted Permutation.
From stdpp Require Import gmap strings list fin_maps sorting pretty.

#[local] Open Scope string_scope.
#[local] Set Warnings "-inexact-float".

(** ** Python values, exceptions, results *)

(** Hyperparameter values: the sources only ever store integers and strings. *)
Inductive pyval :=
  | PyInt (z : Z)
  | PyStr (s : string).

(** The exceptions that the modelled code can raise. [ShapeError] is polars'. *)
Inductive exn :=
  | KeyError (key : string)
  | AttributeError (attr : string)
  | TypeError (msg : string)
  | ValueError (msg : string)
  | IndexError
  | ShapeError.

Inductive result (A : Type) :=
  | Ok (a : A)
  | Raise (e : exn).
Arguments Ok {A} a.
Arguments Raise {A} e.

Definition is_ok {A} (r : result A) : bool :=
  match r with Ok _ => true | Raise _ => false end.

#[global] Instance result_ret : MRet result := @Ok.
#[global] Instance result_bind : MBind result := λ A B f r,
  match r with Ok a => f a | Raise e => Raise e end.

(** [[f(x) for x in xs]]: stops at the first element that raises. *)
Fixpoint result_map {A B} (f : A → result B) (xs : list A) : result (list B) :=
  match xs with
  | [] => Ok []
  | x :: xs' => y ← f x; ys ← result_map f xs'; Ok (y :: ys)
  end.

(** ** Data frames *)

Definition row := list float.

(** A feature frame: named columns, rows in temporal order. *)
Record DataFrame := { columns : list string; rows : list row }.

(** A one-column frame of regression labels; [None] is polars' null. *)
Definition target := list (option float).

(** [Series.is_not_null()] *)
Definition is_not_null (y : target) : list bool :=
  map (λ v, match v with Some _ => true | None => false end) y.

(** [DataFrame.filter(mask)] on a list of rows: polars raises [ShapeError]
    when the mask and the frame differ in height. *)
Fixpoint filter_rows {A} (xs : list A) (mask : list bool) : result (list A) :=
  match xs, mask with
  | [], [] => Ok []
  | x :: xs', b :: mask' =>
      r ← filter_rows xs' mask'; Ok (if b then x :: r else r)
  | _, _ => Raise ShapeError
  end.

Definition DataFrame_filter (df : DataFrame) (mask : list bool) : result DataFrame :=
  r ← filter_rows (rows df) mask; Ok {| columns := columns df; rows := r |}.

(** [y.to_numpy().ravel()]: a null becomes NaN. *)
Definition to_numpy_ravel (y : target) : list float := map (default nan) y.

(** [Series.unique(maintain_order=True)]: each value once, at the position
    of its first occurrence. *)
Fixpoint unique_maintain_order_from (seen : list string) (xs : list string) : list string :=
  match xs with
  | [] => []
  | x :: xs' =>
      if bool_decide (x ∈ seen) then unique_maintain_order_from seen xs'
      else x :: unique_maintain_order_from (x :: seen) xs'
  end.

Definition unique_maintain_order (xs : list string) : list string :=
  unique_maintain_order_from [] xs.

(** ** Confusion matrix and run log *)

(** [cm_counts !! i !! j] counts the test rows with true label
    [cm_labels !! i] that were predicted as [cm_labels !! j]. *)
Record ConfusionMatrix := { cm_labels : list string; cm_counts : list (list nat) }.

(** What a run leaves behind: metrics and artifacts sent to the sink, files
    written, and the confusion matrix that is logged. *)
Inductive event :=
  | log_metric (run key : string)
  | log_artifact (run path : string)
  | write_file (path : string)
  | write_json (path : string) (content : list (string * Q))
  | info_confusion_matrix (cm : ConfusionMatrix).

(** ** The heap of dictionaries and the script monad *)

(** A dictionary object is identified by its index in the heap. *)
Definition ref := nat.

Record state := State { heap : list (gmap string pyval); log : list event }.

Definition M (A : Type) : Type := state → result A * state.

#[global] Instance M_ret : MRet M := λ A a σ, (Ok a, σ).
#[global] Instance M_bind : MBind M := λ A B f m σ,
  match m σ with
  | (Ok a, σ') => f a σ'
  | (Raise e, σ') => (Raise e, σ')
  end.

(** Run a heap-free step; an exception propagates. *)
Definition lift {A} (r : result A) : M A := λ σ, (r, σ).

Definition emit (e : event) : M unit :=
  λ σ, (Ok (), {| heap := heap σ; log := log σ ++ [e] |}).

(** The contents of a dictionary object. *)
Definition deref (σ : state) (d : ref) : gmap string pyval := default ∅ (heap σ !! d).

(** [{}] and [d.copy()]: a new object at the next free index. *)
Definition dict_new (content : gmap string pyval) : M ref :=
  λ σ, (Ok (length (heap σ)), {| heap := heap σ ++ [content]; log := log σ |}).

Definition dict_copy (d : ref) : M ref := λ σ, dict_new (deref σ d) σ.

(** [d.setdefault(k, v)] as a map update. *)
Definition setdefault (k : string) (v : pyval) (d : gmap string pyval) : gmap string pyval :=
  match d !! k with
  | Some _ => d
  | None => <[k := v]> d
  end.

(** [d.setdefault(k, v)] on the object [d]: mutation in place. *)
Definition dict_setdefault (d : ref) (k : string) (v : pyval) : M unit :=
  λ σ, (Ok (), {| heap := <[d := setdefault k v (deref σ d)]> (heap σ); log := log σ |}).

(** [**d]: the entries of [d] at the time of the call. *)
Definition dict_kwargs (d : ref) : M (gmap string pyval) := λ σ, (Ok (deref σ d), σ).

(** [d[k]] on a dictionary literal. *)
Definition getitem {A} (d : gmap string A) (k : string) : result A :=
  match d !! k with
  | Some v => Ok v
  | None => Raise (KeyError k)
  end.

(** ** The estimator objects of scikit-learn and LightGBM

    Only the interface the scripts use is modelled.  An estimator object
    remembers its constructor arguments and, once [fit] has run, the data it
    was fitted on; what it then predicts is left to [Collaborators]. *)

Inductive estimator_class :=
  | LogisticRegression
  | RandomForestClassifier
  | LGBMClassifier
  | LinearRegression
  | RandomForestRegressor
  | LGBMRegressor.

(** The label array handed to [fit]. *)
Inductive ndarray :=
  | str_array (l : list string)
  | bool_array (l : list bool)
  | float_array (l : list float).

Definition ndarray_len (a : ndarray) : nat :=
  match a with
  | str_array l => length l
  | bool_array l => length l
  | float_array l => length l
  end.

Record Fit := {
  fit_X : DataFrame;
  fit_y : ndarray;
  fit_sample_weight : option (list float)
}.

Record Estimator := {
  est_class : estimator_class;
  est_params : gmap string pyval;
  fitted : option Fit
}.

(** [OneVsRestClassifier(estimator)]: the attribute [estimators_] exists
    only after the wrapper's own [fit] has run. *)
Record OneVsRestClassifier := {
  ovr_estimator : Estimator;
  estimators_ : option (list Estimator)
}.

Inductive ClassifierModel :=
  | ovr (m : OneVsRestClassifier)
  | native (m : Estimator).

Definition RegressorModel := Estimator.

(** A value of a returned tuple. *)
Inductive pyobj :=
  | obj_float (x : float)
  | obj_model (m : RegressorModel)
  | obj_path (p : string)
  | obj_none.

(** The collaborators that are outside the scripts: which keyword arguments
    a constructor takes, what a fitted model predicts and reports, the
    metrics, and the input normalisation of [lisa.features].  Importances
    are finite numbers (normalised gains or split counts) and are kept as
    rationals, which compare as such numbers do.

    [fit_refuses] and [predict_refuses] stand for the validation that the
    libraries run inside [fit] and [predict] beyond the shape checks written
    out below: a hyperparameter value out of range, a NaN or an infinite
    value among the labels or the features, too few rows for the estimator,
    a frame whose columns are not those of the training frame, and so on.
    They give the exception the library raises, or [None] when it has no
    objection.  [model_str] is [str(model)], the estimator's repr. *)
Class Collaborators := {
  accepts : estimator_class → string → bool;
  fit_refuses : Estimator → DataFrame → ndarray → option (list float) → option exn;
  predict_refuses : Estimator → DataFrame → option exn;
  model_str : Estimator → string;
  predict_labels : Estimator → DataFrame → list string;
  predict_values : Estimator → DataFrame → list float;
  feature_importances_ : Estimator → list Q;
  r2_score : list float → list float → float;
  mean_squared_error : list float → list float → float;
  standard_scaler : DataFrame → DataFrame → DataFrame * DataFrame
}.

Definition zero_samples : exn := ValueError "Found array with 0 sample(s)".
Definition inconsistent_samples : exn := ValueError "inconsistent numbers of samples".
Definition not_fitted : exn := ValueError "this instance is not fitted yet".

(** A weight vector, when given, has one weight per sample. *)
Definition weights_match (n : nat) (sample_weight : option (list float)) : bool :=
  match sample_weight with
  | Some w => bool_decide (length w = n)
  | None => true
  end.

(** The shape checks every [fit(X, y, sample_weight)] makes on its input. *)
Definition check_X_y (X : DataFrame) (y : ndarray) (sample_weight : option (list float)) : result Fit :=
  if bool_decide (length (rows X) = 0) then Raise zero_samples
  else if bool_decide (length (rows X) ≠ ndarray_len y) then Raise inconsistent_samples
  else if negb (weights_match (length (rows X)) sample_weight) then Raise inconsistent_samples
  else Ok {| fit_X := X; fit_y := y; fit_sample_weight := sample_weight |}.

Section fitting.
Context `{Collaborators}.

(** [estimator.fit(X, y, sample_weight=...)] of the six estimator classes.
    An objection of the library's own validation is raised as it is; the
    shape checks hold in any case. *)
Definition fit (self : Estimator) (X : DataFrame) (y : ndarray)
    (sample_weight : option (list float)) : result Estimator :=
  match fit_refuses self X y sample_weight with
  | Some e => Raise e
  | None =>
      data ← check_X_y X y sample_weight;
      Ok {| est_class := est_class self; est_params := est_params self; fitted := Some data |}
  end.

(** [np.unique]: the sorted distinct labels. *)
Definition np_unique (y : list string) : list string :=
  merge_sort (λ a b, String.leb a b) (unique_maintain_order y).

(** [OneVsRestClassifier.fit(X, y, **fit_params)]: one binary problem per
    class.  Extra keyword arguments are refused (they need metadata routing,
    which the scripts never enable; before scikit-learn 1.4 the method did
    not take any). *)
Definition OneVsRestClassifier_fit (self : OneVsRestClassifier) (X : DataFrame)
    (y : list string) (fit_params : list (string * list float)) : result OneVsRestClassifier :=
  match fit_params with
  | _ :: _ => Raise (ValueError "Passing extra keyword arguments to OneVsRestClassifier.fit")
  | [] =>
      ests ← result_map
        (λ c, fit (ovr_estimator self) X (bool_array (map (λ l, bool_decide (l = c)) y)) None)
        (np_unique y);
      Ok {| ovr_estimator := ovr_estimator self; estimators_ := Some ests |}
  end.

(** [model.estimators_] *)
Definition get_estimators_ (self : OneVsRestClassifier) : result (list Estimator) :=
  match estimators_ self with
  | Some ests => Ok ests
  | None => Raise (AttributeError "estimators_")
  end.

(** [model.fit(X, y, sample_weight=sample_weight)] on a classifier. *)
Definition ClassifierModel_fit (self : ClassifierModel) (X : DataFrame) (y : list string)
    (sample_weight : list float) : result ClassifierModel :=
  match self with
  | ovr m => m' ← OneVsRestClassifier_fit m X y [("sample_weight", sample_weight)]; Ok (ovr m')
  | native e => e' ← fit e X (str_array y) (Some sample_weight); Ok (native e')
  end.

(** [Class(kwargs)] with keyword arguments: an unknown keyword argument is a [TypeError]. *)
Definition new (c : estimator_class) (kwargs : gmap string pyval) : result Estimator :=
  if bool_decide (map_Forall (λ k _, accepts c k = true) kwargs)
  then Ok {| est_class := c; est_params := kwargs; fitted := None |}
  else Raise (TypeError "__init__() got an unexpected keyword argument").

(** [model.predict(X)]: an unfitted model is refused first, then whatever
    the library's validation of [X] objects to. *)
Definition predict_with {A} (f : Estimator → DataFrame → list A)
    (self : Estimator) (X : DataFrame) : result (list A) :=
  match fitted self with
  | None => Raise not_fitted
  | Some _ =>
      match predict_refuses self X with
      | Some e => Raise e
      | None =>
          if bool_decide (length (rows X) = 0) then Raise zero_samples else Ok (f self X)
      end
  end.

Definition predict (self : Estimator) (X : DataFrame) : result (list float) :=
  predict_with predict_values self X.

Definition ClassifierModel_predict (self : ClassifierModel) (X : DataFrame) : result (list string) :=
  match self with
  | ovr m =>
      match estimators_ m with
      | None => Raise not_fitted
      | Some _ =>
          match predict_refuses (ovr_estimator m) X with
          | Some e => Raise e
          | None =>
              if bool_decide (length (rows X) = 0) then Raise zero_samples
              else Ok (predict_labels (ovr_estimator m) X)
          end
      end
  | native e => predict_with predict_labels e X
  end.
End fitting.

(** ** Helpers shared by both scripts *)

(** The literal [class_weights] of [classifier]
    (multipredictor.py:62, remote_multipredictor.py:50). *)
Definition class_weights : gmap string float :=
  <["run" := (1 / 0.4)%float]> (<["jump" := (1 / 0.024)%float]> (<["walk" := (1 / 0.576)%float]> ∅)).

(** [np.array([class_weights[label] for label in y_train])] *)
Definition sample_weights (y_train : list string) : result (list float) :=
  result_map (getitem class_weights) y_train.

(** [l[i]] on a list. *)
Definition list_getitem {A} (l : list A) (i : nat) : result A :=
  match l !! i with
  | Some x => Ok x
  | None => Raise IndexError
  end.

(** A stable insertion sort: [x] goes before the first [y] with [le x y]. *)
Fixpoint insert_by {A} (le : A → A → bool) (x : A) (l : list A) : list A :=
  match l with
  | [] => [x]
  | y :: l' => if le x y then x :: l else y :: insert_by le x l'
  end.

Definition sort_by {A} (le : A → A → bool) (l : list A) : list A :=
  foldr (insert_by le) [] l.

(** [np.argsort(a)]: the indices of [a] in ascending order of value.  Which
    of two equal values comes first is not fixed by numpy; here it is the
    one with the smaller index. *)
Definition argsort (a : list Q) : list nat :=
  sort_by (λ i j, Qle_bool (nth i a 0%Q) (nth j a 0%Q)) (seq 0 (length a)).

(** [sorted(items, key=lambda item: item[1], reverse=True)]: descending by
    value, equal values in their original order. *)
Definition sorted_by_value_reverse (items : list (string * Q)) : list (string * Q) :=
  sort_by (λ a b, Qle_bool b.2 a.2) items.

(** A Python [dict[str, float]] keeps insertion order: assigning to a key
    that is present replaces the value where the key already is. *)
Fixpoint odict_set (d : list (string * Q)) (k : string) (v : Q) : list (string * Q) :=
  match d with
  | [] => [(k, v)]
  | (k', v') :: d' =>
      if bool_decide (k = k') then (k, v) :: d' else (k', v') :: odict_set d' k v
  end.

(** [dict(items)] and the dictionary comprehension. *)
Definition odict_of_items (items : list (string * Q)) : list (string * Q) :=
  foldl (λ d kv, odict_set d kv.1 kv.2) [] items.

(** [a, b, c, d = t] *)
Definition unpack4 {A} (t : list A) : result (A * A * A * A) :=
  match t with
  | [a; b; c; d] => Ok (a, b, c, d)
  | _ => Raise (ValueError "wrong number of values to unpack (expected 4)")
  end.

(** [str(x)] of a path in a returned tuple, and Python's truth value. *)
Definition obj_str (x : pyobj) : string :=
  match x with obj_path p => p | _ => "" end.

Definition truthy (x : pyobj) : bool :=
  match x with obj_none => false | _ => true end.

(** The name of an estimator class. *)
Definition class_name (c : estimator_class) : string :=
  match c with
  | LogisticRegression => "LogisticRegression"
  | RandomForestClassifier => "RandomForestClassifier"
  | LGBMClassifier => "LGBMClassifier"
  | LinearRegression => "LinearRegression"
  | RandomForestRegressor => "RandomForestRegressor"
  | LGBMRegressor => "LGBMRegressor"
  end.

Definition tree_based (c : estimator_class) : bool :=
  match c with
  | LogisticRegression | LinearRegression => false
  | _ => true
  end.

Section evaluate.
Context `{Collaborators}.

(** [model.feature_importances_]: linear models have no such attribute. *)
Definition get_feature_importances_ (model : Estimator) : result (list Q) :=
  if tree_based (est_class model) then
    match fitted model with
    | Some _ => Ok (feature_importances_ model)
    | None => Raise not_fitted
    end
  else Raise (AttributeError "feature_importances_").

(** Modelled from the spec: [lisa.evaluate.confusion_matrix] is not among
    the sources.  The spec describes its result as a confusion matrix keyed
    by the labels it is given, of dimensions (number of labels) squared; the
    cell for (true label, predicted label) counts the held-out rows with
    that pair, and the rendered plot is saved at [savepath]. *)
Definition confusion_matrix (model : ClassifierModel) (labels : list string)
    (X_test : DataFrame) (y_test : list string) (savepath : string) : M ConfusionMatrix :=
  y_pred ← lift (ClassifierModel_predict model X_test);
  emit (write_file savepath);;
  mret {| cm_labels := labels;
          cm_counts :=
            map (λ t, map (λ p,
              length (filter (λ tp, tp = (t, p)) (zip y_test y_pred))) labels) labels |}.
End evaluate.

(** ** multipredictor.py: results tracked with mlflow *)

Module multipredictor.
Section script.
Context `{Collaborators}.

(** The dispatch table [models] of [classifier]. *)
Definition classifier_models : gmap string (gmap string pyval → result ClassifierModel) :=
  <["LR" := λ params,
      e ← new LogisticRegression params;
      Ok (ovr {| ovr_estimator := e; estimators_ := None |})]>
  (<["RF" := λ params, e ← new RandomForestClassifier params; Ok (native e)]>
  (<["LGBM" := λ params, e ← new LGBMClassifier params; Ok (native e)]> ∅)).

Definition classifier (model_name : string) (X_train : DataFrame) (y_train : list string)
    (params : ref) : M ClassifierModel :=
  params ← dict_copy params;
  dict_setdefault params "n_jobs" (PyInt (-1));;
  dict_setdefault params "random_state" (PyInt 42);;
  sample_weight ← lift (sample_weights y_train);
  make ← lift (getitem classifier_models model_name);
  kwargs ← dict_kwargs params;
  model ← lift (make kwargs);
  lift (ClassifierModel_fit model X_train y_train sample_weight).

(** The dispatch table [models] of [regressor]. *)
Definition regressor_models : gmap string (gmap string pyval → result RegressorModel) :=
  <["LR" := new LinearRegression]>
  (<["RF" := new RandomForestRegressor]>
  (<["LGBM" := new LGBMRegressor]> ∅)).

Definition regressor (model_name : string) (X_train X_test : DataFrame)
    (y_train y_test : target) (params : ref) : M (target * list float * RegressorModel) :=
  params ← dict_copy params;
  (if bool_decide (model_name ≠ "LR") then dict_setdefault params "random_state" (PyInt 42)
   else mret ());;
  (if bool_decide (model_name = "RF") then
     dict_setdefault params "n_estimators" (PyInt 10);;
     dict_setdefault params "max_depth" (PyInt 10)
   else mret ());;
  dict_setdefault params "n_jobs" (PyInt (-1));;
  dict_setdefault params "class_weight" (PyStr "balanced");;
  make ← lift (getitem regressor_models model_name);
  kwargs ← dict_kwargs params;
  model ← lift (make kwargs);
  let train_non_null_mask := is_not_null y_train in
  X_train_filtered ← lift (DataFrame_filter X_train train_non_null_mask);
  y_train_filtered ← lift (filter_rows y_train train_non_null_mask);
  model ← lift (fit model X_train_filtered (float_array (to_numpy_ravel y_train_filtered)) None);
  let test_non_null_mask := is_not_null y_test in
  X_test_filtered ← lift (DataFrame_filter X_test test_non_null_mask);
  y_test_filtered ← lift (filter_rows y_test test_non_null_mask);
  y_pred ← lift (predict model X_test_filtered);
  mret (y_test_filtered, y_pred, model).

Definition _feature_importances (model : RegressorModel) (X_train : DataFrame)
    : result (list (string * Q)) :=
  feature_importances ← get_feature_importances_ model;
  let indices := rev (argsort feature_importances) in
  let feature_names := columns X_train in
  items ← result_map
    (λ i, j ← list_getitem indices i;
          name ← list_getitem feature_names j;
          value ← list_getitem feature_importances j;
          Ok (name, value))
    (seq 0 (length feature_importances));
  let feature_importance_dict := odict_of_items items in
  Ok (odict_of_items (sorted_by_value_reverse feature_importance_dict)).

(** Returns the five values [r2, rmse, model, y_plot_path,
    feature_importances_path]. *)
Definition _regressor_script (model_name feature_name : string) (X_train X_test : DataFrame)
    (y_train y_test : target) (hyperparams : ref) : M (list pyobj) :=
  '(y_test_filtered, y_pred, model) ←
    regressor model_name X_train X_test y_train y_test hyperparams;
  let rmse := sqrt (mean_squared_error (to_numpy_ravel y_test_filtered) y_pred) in
  let r2 := r2_score (to_numpy_ravel y_test_filtered) y_pred in
  let y_plot_path := model_name ++ "_" ++ feature_name ++ "_hist.png" in
  emit (write_file y_plot_path);;
  feature_importances_path ←
    (if bool_decide (model_name = "LGBM" ∨ model_name = "RF") then
       sorted_feature_importance_dict ← lift (_feature_importances model X_train);
       let path := "feature_importances_" ++ model_str model ++ "_"
                   ++ feature_name ++ ".json" in
       emit (write_json path sorted_feature_importance_dict);;
       mret (obj_path path)
     else mret obj_none);
  mret [obj_float r2; obj_float rmse; obj_model model; obj_path y_plot_path;
        feature_importances_path].

(** What [sequential_stratified_split] hands to [main]. *)
Record Split := {
  X_train : DataFrame; X_test : DataFrame;
  y1_train : list string; y1_test : list string;
  y2_train : target; y2_test : target;
  y3_train : target; y3_test : target
}.

(** One nested run of a regression target: the four names on the left of
    the assignment receive the tuple of [_regressor_script]. *)
Definition regressor_run (run : string) (model feature_name : string)
    (scaled_X_train scaled_X_test : DataFrame) (y_train y_test : target)
    (hyperparams : ref) : M unit :=
  t ← _regressor_script model feature_name scaled_X_train scaled_X_test y_train y_test
        hyperparams;
  '(y_r2, y_rmse, y_plot_path, feature_importances_path) ← lift (unpack4 t);
  emit (log_metric run "score");;
  emit (log_metric run "rmse");;
  emit (log_metric run "r2");;
  emit (log_artifact run (obj_str y_plot_path));;
  if truthy feature_importances_path
  then emit (log_artifact run (obj_str feature_importances_path))
  else mret ().

(** The nested run "activity classifier"; [activity] is the ACTIVITY
    column of the full data set. *)
Definition activity_run (model : string) (activity : list string)
    (scaled_X_train scaled_X_test : DataFrame) (y1_train y1_test : list string)
    (hyperparams : ref) : M ConfusionMatrix :=
  let run := "activity classifier" in
  activity_model ← classifier model scaled_X_train y1_train hyperparams;
  lift (ClassifierModel_predict activity_model scaled_X_test);;
  emit (log_metric run "score");;
  lift (ClassifierModel_predict activity_model scaled_X_test);;
  emit (log_metric run "f1_score");;
  emit (log_metric run "f1_score_weighted");;
  let labels := unique_maintain_order activity in
  let cm_plot_path := model ++ "_confusion_matrix.png" in
  cm ← confusion_matrix activity_model labels scaled_X_test y1_test cm_plot_path;
  emit (info_confusion_matrix cm);;
  emit (log_artifact run cm_plot_path);;
  mret cm.

(** [main], from the split onwards: the three nested runs in sequence.
    Nothing catches an exception. *)
Definition main (activity : list string) (s : Split) (model : string) : M unit :=
  let '(scaled_X_train, scaled_X_test) :=
    if bool_decide (model = "LR") then standard_scaler (X_train s) (X_test s)
    else (X_train s, X_test s) in
  hyperparams ← dict_new ∅;
  activity_run model activity scaled_X_train scaled_X_test (y1_train s) (y1_test s)
    hyperparams;;
  regressor_run "speed regressor" model "Speed" scaled_X_train scaled_X_test
    (y2_train s) (y2_test s) hyperparams;;
  regressor_run "incline regressor" model "Incline" scaled_X_train scaled_X_test
    (y3_train s) (y3_test s) hyperparams.
End script.
End multipredictor.

(** ** remote_multipredictor.py: results written to a local directory *)

Module remote_multipredictor.
Section script.
Context `{Collaborators}.

(** The dispatch table [models] of [classifier]. *)
Definition classifier_models : gmap string (gmap string pyval → result ClassifierModel) :=
  <["LR" := λ params,
      e ← new LogisticRegression params;
      Ok (ovr {| ovr_estimator := e; estimators_ := None |})]>
  (<["RF" := λ params, e ← new RandomForestClassifier params; Ok (native e)]>
  (<["LGBM" := λ params, e ← new LGBMClassifier params; Ok (native e)]> ∅)).

Definition classifier (model_name : string) (X_train : DataFrame) (y_train : list string)
    (params : ref) : M ClassifierModel :=
  params ← dict_copy params;
  dict_setdefault params "n_jobs" (PyInt (-1));;
  dict_setdefault params "random_state" (PyInt 42);;
  sample_weight ← lift (sample_weights y_train);
  if bool_decide (model_name = "LR") then
    (* Handle sample_weight separately for LogisticRegression *)
    kwargs ← dict_kwargs params;
    e ← lift (new LogisticRegression kwargs);
    let model := {| ovr_estimator := e; estimators_ := None |} in
    ests ← lift (get_estimators_ model);
    ests ← lift (result_map
      (λ estimator, fit estimator X_train (str_array y_train) (Some sample_weight)) ests);
    mret (ovr {| ovr_estimator := ovr_estimator model; estimators_ := Some ests |})
  else
    make ← lift (getitem classifier_models model_name);
    kwargs ← dict_kwargs params;
    model ← lift (make kwargs);
    lift (ClassifierModel_fit model X_train y_train sample_weight).

(** The dispatch table [models] of [regressor]. *)
Definition regressor_models : gmap string (gmap string pyval → result RegressorModel) :=
  <["LR" := new LinearRegression]>
  (<["RF" := new RandomForestRegressor]>
  (<["LGBM" := new LGBMRegressor]> ∅)).

Definition regressor (model_name : string) (X_train X_test : DataFrame)
    (y_train y_test : target) (params : ref) : M (list float * float * RegressorModel) :=
  params ← dict_copy params;
  (if bool_decide (model_name ≠ "LR") then dict_setdefault params "random_state" (PyInt 42)
   else mret ());;
  (if bool_decide (model_name = "RF") then
     dict_setdefault params "n_estimators" (PyInt 10);;
     dict_setdefault params "max_depth" (PyInt 10)
   else mret ());;
  dict_setdefault params "n_jobs" (PyInt (-1));;
  make ← lift (getitem regressor_models model_name);
  kwargs ← dict_kwargs params;
  model ← lift (make kwargs);
  let train_non_null_mask := is_not_null y_train in
  X_train_filtered ← lift (DataFrame_filter X_train train_non_null_mask);
  y_train_filtered ← lift (filter_rows y_train train_non_null_mask);
  model ← lift (fit model X_train_filtered (float_array (to_numpy_ravel y_train_filtered)) None);
  let test_non_null_mask := is_not_null y_test in
  X_test_filtered ← lift (DataFrame_filter X_test test_non_null_mask);
  y_test_filtered ← lift (filter_rows y_test test_non_null_mask);
  y_pred ← lift (predict model X_test_filtered);
  y_pred' ← lift (predict model X_test_filtered);
  let y_score := r2_score (to_numpy_ravel y_test_filtered) y_pred' in
  mret (y_pred, y_score, model).

Definition _feature_importances (model : RegressorModel) (X_train : DataFrame)
    : result (list (string * Q)) :=
  feature_importances ← get_feature_importances_ model;
  let indices := rev (argsort feature_importances) in
  let feature_names := columns X_train in
  items ← result_map
    (λ i, j ← list_getitem indices i;
          name ← list_getitem feature_names j;
          value ← list_getitem feature_importances j;
          Ok (name, value))
    (seq 0 (length feature_importances));
  let feature_importance_dict := odict_of_items items in
  Ok (odict_of_items (sorted_by_value_reverse feature_importance_dict)).

Definition _regressor_script (model_name feature_name : string) (X_train X_test : DataFrame)
    (y_train y_test : target) (hyperparams : ref) : M (float * RegressorModel) :=
  '(y_pred, y_score, model) ←
    regressor model_name X_train X_test y_train y_test hyperparams;
  let y_plot_path := feature_name ++ "_hist.png" in
  emit (write_file y_plot_path);;
  (if bool_decide (model_name = "LGBM" ∨ model_name = "RF") then
     sorted_feature_importance_dict ← lift (_feature_importances model X_train);
     emit (write_json ("feature_importances_" ++ feature_name ++ ".json")
             sorted_feature_importance_dict)
   else mret ());;
  mret (y_score, model).

(** What [sequential_stratified_split] hands to [main]: only the
    ACTIVITY labels are requested. *)
Record Split := {
  X_train : DataFrame; X_test : DataFrame;
  y1_train : list string; y1_test : list string
}.

(** The activity block of [main]; [activity] is the ACTIVITY column of
    the full data set. *)
Definition activity_run (model : string) (activity : list string)
    (scaled_X_train scaled_X_test : DataFrame) (y1_train y1_test : list string)
    (hyperparams : ref) : M ConfusionMatrix :=
  activity_model ← classifier model scaled_X_train y1_train hyperparams;
  lift (ClassifierModel_predict activity_model scaled_X_test);;
  emit (log_metric "score" "activity");;
  lift (ClassifierModel_predict activity_model scaled_X_test);;
  emit (log_metric "score" "activity_weighted");;
  let labels := unique_maintain_order activity in
  let cm_plot_path := "confusion_matrix.png" in
  cm ← confusion_matrix activity_model labels scaled_X_test y1_test cm_plot_path;
  emit (info_confusion_matrix cm);;
  mret cm.

(** [main], from the split onwards; the two regression stages are
    commented out in the script. *)
Definition main (activity : list string) (s : Split) (model : string) (save : bool) : M unit :=
  let '(scaled_X_train, scaled_X_test) :=
    if bool_decide (model = "LR") then standard_scaler (X_train s) (X_test s)
    else (X_train s, X_test s) in
  hyperparams ← dict_new ∅;
  activity_run model activity scaled_X_train scaled_X_test (y1_train s) (y1_test s)
    hyperparams;;
  emit (write_file "output.json");;
  if save then
    (if bool_decide (model = "LR") then emit (write_file "scaler.pkl") else mret ());;
    emit (write_file "activity.pkl")
  else mret ().
End script.
End remote_multipredictor.

(** ** A concrete set of collaborators, to run the scripts on examples *)

(** Keyword arguments of the constructors (the ones in common use): the
    LightGBM classes take any keyword; of the scikit-learn classes only the
    two classifiers take [class_weight], and [LinearRegression] takes
    neither a seed nor tree parameters. *)
Definition forest_keywords : list string :=
  ["n_estimators"; "criterion"; "max_depth"; "min_samples_split"; "min_samples_leaf";
   "max_features"; "bootstrap"; "oob_score"; "n_jobs"; "random_state"; "verbose";
   "warm_start"; "max_samples"].

Definition reference_accepts (c : estimator_class) (k : string) : bool :=
  match c with
  | LGBMClassifier | LGBMRegressor => true
  | LogisticRegression =>
      bool_decide (k ∈ ["penalty"; "tol"; "C"; "fit_intercept"; "class_weight";
                        "random_state"; "solver"; "max_iter"; "verbose"; "n_jobs"])
  | RandomForestClassifier => bool_decide (k ∈ "class_weight" :: forest_keywords)
  | LinearRegression => bool_decide (k ∈ ["fit_intercept"; "copy_X"; "n_jobs"; "positive"])
  | RandomForestRegressor => bool_decide (k ∈ forest_keywords)
  end.

(** A hyperparameter that has to be a positive integer when it is given. *)
Definition positive_int_param (kwargs : gmap string pyval) (k : string) : bool :=
  match kwargs !! k with
  | Some (PyInt z) => bool_decide (1 ≤ z)%Z
  | Some (PyStr _) => false
  | None => true
  end.

Definition is_forest (c : estimator_class) : bool :=
  match c with
  | RandomForestClassifier | RandomForestRegressor => true
  | _ => false
  end.

Definition is_lightgbm (c : estimator_class) : bool :=
  match c with
  | LGBMClassifier | LGBMRegressor => true
  | _ => false
  end.

Definition labels_finite (y : ndarray) : bool :=
  match y with
  | float_array l => forallb is_finite l
  | _ => true
  end.

(** What [fit] validates beyond the shapes: the random forests want a
    positive [n_estimators] and [max_depth]; no label may be NaN or
    infinite, and no feature either for the scikit-learn classes (LightGBM
    takes missing features); LightGBM wants two rows at least. *)
Definition reference_fit_refuses (self : Estimator) (X : DataFrame) (y : ndarray)
    (sample_weight : option (list float)) : option exn :=
  if is_forest (est_class self)
     && negb (positive_int_param (est_params self) "n_estimators"
              && positive_int_param (est_params self) "max_depth")
  then Some (ValueError "InvalidParameterError")
  else if negb (is_lightgbm (est_class self)) && negb (forallb (forallb is_finite) (rows X))
  then Some (ValueError "Input X contains NaN or infinity")
  else if negb (labels_finite y)
  then Some (ValueError "Input y contains NaN or infinity")
  else if is_lightgbm (est_class self) && bool_decide (length (rows X) = 1)
  then Some (ValueError "Found array with 1 sample(s) while a minimum of 2 is required")
  else None.

(** [predict] wants the columns the model was fitted on. *)
Definition reference_predict_refuses (self : Estimator) (X : DataFrame) : option exn :=
  match fitted self with
  | Some f =>
      if bool_decide (columns X = columns (fit_X f)) then None
      else Some (ValueError "The feature names should match those that were passed during fit")
  | None => None
  end.

Definition pyval_repr (v : pyval) : string :=
  match v with
  | PyInt z => pretty z
  | PyStr s => "'" ++ s ++ "'"
  end.

Fixpoint join (sep : string) (l : list string) : string :=
  match l with
  | [] => ""
  | [x] => x
  | x :: l' => x ++ sep ++ join sep l'
  end.

(** The repr of an estimator: the class name and the keyword arguments it
    was built with, in alphabetical order. *)
Definition reference_model_str (m : Estimator) : string :=
  class_name (est_class m) ++ "("
  ++ join ", " (map (λ kv, kv.1 ++ "=" ++ pyval_repr kv.2)
                    (merge_sort (λ a b, String.leb a.1 b.1) (map_to_list (est_params m))))
  ++ ")".

(** Predictions are constant, and the importance of column [i] is [i]. *)
Definition reference_collaborators : Collaborators := {|
  accepts := reference_accepts;
  fit_refuses := reference_fit_refuses;
  predict_refuses := reference_predict_refuses;
  model_str := reference_model_str;
  predict_labels := λ _ X, map (λ _, "walk") (rows X);
  predict_values := λ _ X, map (λ _, 0%float) (rows X);
  feature_importances_ := λ m,
    match fitted m with
    | Some f => map (λ i, inject_Z (Z.of_nat i)) (seq 0 (length (columns (fit_X f))))
    | None => []
    end;
  r2_score := λ _ _, 0%float;
  mean_squared_error := λ _ _, 0%float;
  standard_scaler := λ a b, (a, b)
|}.


(** ** The column-name components that [main] logs *)

(** The two compiled patterns of [lisa.config]: [imu_pattern.match(key)]
    yields the four groups statistic, measure, location and dimension of an
    IMU column name, [foot_sensor_pattern.match(key)] the two groups
    statistic and location of a foot-sensor column name, or nothing. *)
Class Patterns := {
  imu_pattern_match : string → option (string * string * string * string);
  foot_sensor_pattern_match : string → option (string * string)
}.

(** The four sets [statistic], [measure], [location], [dimension]. *)
Record Components := {
  statistic : gset string;
  measure : gset string;
  location : gset string;
  dimension : gset string
}.

Definition no_components : Components :=
  {| statistic := ∅; measure := ∅; location := ∅; dimension := ∅ |}.

Section components.
Context `{Patterns}.

(** The body of the loop over the column names. *)
Definition add_components (c : Components) (key : string) : Components :=
  let imu_match := imu_pattern_match key in
  let foot_sensor_match := foot_sensor_pattern_match key in
  match imu_match with
  | Some (stat, meas, loc, dim) =>
      {| statistic := statistic c ∪ {[stat]};
         measure := measure c ∪ {[meas]};
         location := location c ∪ {[loc]};
         dimension := dimension c ∪ {[dim]} |}
  | None =>
      match foot_sensor_match with
      | Some (stat, loc) =>
          {| statistic := statistic c ∪ {[stat]};
             measure := measure c;
             location := location c ∪ {[loc]};
             dimension := dimension c |}
      | None => c
      end
  end.

(** [for key in df.collect_schema().names(): ...] *)
Definition column_components (names : list string) : Components :=
  foldl add_components no_components names.
End components.

(** Patterns for examples: [mean_acc_foot_x] is an IMU name, [max_left]
    a foot-sensor name. *)
Definition example_patterns : Patterns := {|
  imu_pattern_match := λ key,
    if bool_decide (key = "mean_acc_foot_x") then Some ("mean", "acc", "foot", "x")
    else if bool_decide (key = "max_gyro_shank_y") then Some ("max", "gyro", "shank", "y")
    else None;
  foot_sensor_pattern_match := λ key,
    if bool_decide (key = "max_left") then Some ("max", "left")
    else if bool_decide (key = "mean_acc_foot_x") then Some ("mean_acc_foot", "x")
    else None
|}.

(** * Vocabulary of the properties *)

(** The state after a call has allocated its copy [d]. *)
Definition alloc (σ : state) (d : gmap string pyval) : state :=
  {| heap := heap σ ++ [d]; log := log σ |}.

(** The dictionary a call builds its estimator from: its copy of [params],
    the first object the call allocates. *)
Definition effective_params {A} (call : M A) (σ : state) : gmap string pyval :=
  deref (call σ).2 (length (heap σ)).

(** The defaults both [classifier]s apply. *)
Definition classifier_defaults (d : gmap string pyval) : gmap string pyval :=
  setdefault "random_state" (PyInt 42) (setdefault "n_jobs" (PyInt (-1)) d).

(** The defaults both [regressor]s apply. *)
Definition regressor_defaults (model_name : string) (d : gmap string pyval) : gmap string pyval :=
  let d1 := if bool_decide (model_name ≠ "LR") then setdefault "random_state" (PyInt 42) d else d in
  let d2 := if bool_decide (model_name = "RF")
            then setdefault "max_depth" (PyInt 10) (setdefault "n_estimators" (PyInt 10) d1)
            else d1 in
  setdefault "n_jobs" (PyInt (-1)) d2.

(** What both [regressor]s do once the keyword arguments are fixed:
    build, filter the train pair, fit, filter the test pair, predict. *)
Definition fit_predict `{Collaborators}
    (make : result (gmap string pyval → result RegressorModel))
    (kwargs : gmap string pyval) (X_train X_test : DataFrame) (y_train y_test : target)
    : result (target * list float * RegressorModel) :=
  make ← make;
  model ← make kwargs;
  X_train_filtered ← DataFrame_filter X_train (is_not_null y_train);
  y_train_filtered ← filter_rows y_train (is_not_null y_train);
  model ← fit model X_train_filtered (float_array (to_numpy_ravel y_train_filtered)) None;
  X_test_filtered ← DataFrame_filter X_test (is_not_null y_test);
  y_test_filtered ← filter_rows y_test (is_not_null y_test);
  y_pred ← predict model X_test_filtered;
  Ok (y_test_filtered, y_pred, model).

(** The constructors in the dispatch tables of [regressor]. *)
Definition regressor_constructor `{Collaborators}
    (make : result (gmap string pyval → result RegressorModel)) : Prop :=
  ∀ f, make = Ok f → ∃ c, f = new c.

(** The caller's entry for [k] if there is one, else the default [v]. *)
Definition or_default (k : string) (v : pyval) (d eff : gmap string pyval) : Prop :=
  eff !! k = Some (default v (d !! k)).

(** Every entry of the caller is in the effective parameters. *)
Definition keeps_caller (d eff : gmap string pyval) : Prop :=
  ∀ k v, d !! k = Some v → eff !! k = Some v.

(** What the effective parameters [eff] of a [classifier] call are, given
    the caller's [d]. *)
Definition classifier_params_ok (d eff : gmap string pyval) : Prop :=
  keeps_caller d eff
  ∧ or_default "n_jobs" (PyInt (-1)) d eff
  ∧ or_default "random_state" (PyInt 42) d eff.

(** The same for a [regressor] call of family [m]: no seed is supplied for
    the linear family, and the tree defaults only for the random forest. *)
Definition regressor_params_ok (m : string) (d eff : gmap string pyval) : Prop :=
  keeps_caller d eff
  ∧ or_default "n_jobs" (PyInt (-1)) d eff
  ∧ (if bool_decide (m = "LR") then eff !! "random_state" = d !! "random_state"
     else or_default "random_state" (PyInt 42) d eff)
  ∧ (if bool_decide (m = "RF")
     then or_default "n_estimators" (PyInt 10) d eff ∧ or_default "max_depth" (PyInt 10) d eff
     else eff !! "n_estimators" = d !! "n_estimators" ∧ eff !! "max_depth" = d !! "max_depth").

(** The labels of the weight table. *)
Definition in_table (label : string) : Prop := label ∈ ["run"; "jump"; "walk"].

#[global] Instance in_table_dec label : Decision (in_table label).
Proof. unfold in_table. apply _. Defined.

(** The spec's [UnknownLabelError]: the [KeyError] that the look-up in the
    weight table raises, carrying the label. *)
Definition UnknownLabelError (label : string) : exn := KeyError label.

(** A strictly positive weight. *)
Definition positive_weight (w : float) : Prop := (0 <? w)%float = true.

(** The rows of a frame whose own label is not null. *)
Definition eligible_rows {A} (X : list A) (y : target) : list A :=
  omap (λ xv, match xv.2 with Some _ => Some xv.1 | None => None end) (zip X y).

(** The labels that are not null. *)
Definition eligible_labels (y : target) : list float := omap id y.



(** [labels] lists the distinct values of [xs] in the order of their first
    occurrence: no repetition, the same values, and whenever [x] stands
    before [y] in [labels], [x] occurs in [xs] before the first [y]. *)
Definition first_occurrence_order (labels xs : list string) : Prop :=
  NoDup labels
  ∧ (∀ x, x ∈ labels ↔ x ∈ xs)
  ∧ ∀ r1 x r2 y, labels = (r1 ++ x :: r2)%list → y ∈ r2 →
      ∃ l1 l2, xs = (l1 ++ y :: l2)%list ∧ (y ∉ l1) ∧ x ∈ l1.

(** A square matrix with one row and one column per label. *)
Definition square_over_labels (cm : ConfusionMatrix) : Prop :=
  length (cm_counts cm) = length (cm_labels cm)
  ∧ Forall (λ r, length r = length (cm_labels cm)) (cm_counts cm).

(** Entries in non-increasing order of their value. *)
Definition non_increasing (d : list (string * Q)) : Prop :=
  StronglySorted (λ a b, (b.2 <= a.2)%Q) d.

(** [d] maps feature names of [X] to their importances in [model]: no name
    twice, and every entry is the name and the importance of one column. *)
Definition importance_mapping `{Collaborators} (model : RegressorModel) (X : DataFrame)
    (d : list (string * Q)) : Prop :=
  NoDup d.*1
  ∧ ∀ name v, (name, v) ∈ d →
      ∃ j, columns X !! j = Some name ∧ feature_importances_ model !! j = Some v.

(** ** Example inputs *)

Definition X2 : DataFrame :=
  {| columns := ["acc_mean"; "gyro_mean"]; rows := [[1; 2]; [3; 4]]%float |}.

(** A heap holding one caller dictionary, [{"n_estimators": 5}]. *)
Definition st1 : state := {| heap := [{["n_estimators" := PyInt 5]}]; log := [] |}.

(** A heap holding one empty dictionary. *)
Definition st0 : state := {| heap := [∅]; log := [] |}.

(** Labels of one regression target: the first row is locomotion, the
    second is not; and the other way round. *)
Definition y_first : target := [Some 1%float; None].
Definition y_second : target := [None; Some 2%float].

(** Three rows, with two locomotion rows in the train and in the test labels. *)
Definition X3 : DataFrame :=
  {| columns := ["acc_mean"; "gyro_mean"]; rows := [[1; 2]; [3; 4]; [5; 6]]%float |}.
Definition y_train3 : target := [Some 1%float; None; Some 2%float].
Definition y_test3 : target := [None; Some 3%float; Some 4%float].



(** The ACTIVITY column of a small data set. *)
Definition activity4 : list string := ["walk"; "run"; "walk"; "jump"].

(** A random-forest regressor fitted on [X2]. *)
Definition forest2 : RegressorModel := {|
  est_class := RandomForestRegressor;
  est_params := ∅;
  fitted := Some {| fit_X := X2; fit_y := float_array [1; 2]%float; fit_sample_weight := None |}
|}.

(** ** Vocabulary of the further properties *)

(** The estimator class behind a family name in [regressor]. *)
Definition regressor_class (m : string) : option estimator_class :=
  if bool_decide (m = "LR") then Some LinearRegression
  else if bool_decide (m = "RF") then Some RandomForestRegressor
  else if bool_decide (m = "LGBM") then Some LGBMRegressor
  else None.

(** The estimator class behind a family name in [classifier], for the two
    families that are fitted directly. *)
Definition native_classifier_class (m : string) : option estimator_class :=
  if bool_decide (m = "RF") then Some RandomForestClassifier
  else if bool_decide (m = "LGBM") then Some LGBMClassifier
  else None.

(** The constructor of class [c] takes every keyword of [kwargs]. *)
Definition constructible `{Collaborators} (c : estimator_class) (kwargs : gmap string pyval)
    : Prop :=
  map_Forall (λ k _, accepts c k = true) kwargs.

(** Whatever state the computation [m] starts in, it only appends to the
    heap and to the log, and every event it appends satisfies [P]. *)
Definition appends {A} (P : event → Prop) (m : M A) : Prop :=
  ∀ σ, ∃ h evs, heap (m σ).2 = (heap σ ++ h)%list
                ∧ log (m σ).2 = (log σ ++ evs)%list
                ∧ Forall P evs.

(** A feature-importance file holds a ranking: names once, values
    non-increasing. *)
Definition json_is_ranking (ev : event) : Prop :=
  match ev with
  | write_json _ content => non_increasing content ∧ NoDup content.*1
  | _ => True
  end.

(** An event of a regression run: a metric or an artifact sent under a run
    name other than the classifier's. *)
Definition regression_record (ev : event) : Prop :=
  match ev with
  | log_metric run _ | log_artifact run _ => run ≠ "activity classifier"
  | _ => False
  end.

(** The height of the frame differs from the number of labels. *)
Definition height_mismatch (X : DataFrame) (y : target) : Prop :=
  length (rows X) ≠ length y.

(** The estimator that the constructor of class [c] makes from [kwargs]. *)
Definition unfitted (c : estimator_class) (kwargs : gmap string pyval) : Estimator :=
  {| est_class := c; est_params := kwargs; fitted := None |}.

(** The model [regressor] returns for class [c] and keywords [kwargs]. *)
Definition fitted_regressor (c : estimator_class) (kwargs : gmap string pyval)
    (X_train : DataFrame) (y_train : target) : RegressorModel :=
  {| est_class := c; est_params := kwargs;
     fitted := Some {| fit_X := {| columns := columns X_train;
                                   rows := eligible_rows (rows X_train) y_train |};
                       fit_y := float_array (eligible_labels y_train);
                       fit_sample_weight := None |} |}.

(** The test frame [regressor] predicts for. *)
Definition eligible_frame (X : DataFrame) (y : target) : DataFrame :=
  {| columns := columns X; rows := eligible_rows (rows X) y |}.


(** The keyword arguments a classifier was built with. *)
Definition classifier_kwargs (model : ClassifierModel) : gmap string pyval :=
  match model with
  | ovr o => est_params (ovr_estimator o)
  | native e => est_params e
  end.

(** The model [classifier] returns for class [c] and keywords [kwargs]. *)
Definition fitted_classifier (c : estimator_class) (kwargs : gmap string pyval)
    (X_train : DataFrame) (y_train : list string) (ws : list float) : Estimator :=
  {| est_class := c; est_params := kwargs;
     fitted := Some {| fit_X := X_train; fit_y := str_array y_train;
                       fit_sample_weight := Some ws |} |}.

(** When [classifier] returns for class [c] with keywords [kwargs]: every
    label has a weight, the constructor takes the keywords, the frame has a
    row per label and one row at least, and the library does not object to
    the weighted fit. *)
Definition classifier_can_run `{Collaborators} (c : estimator_class) (kwargs : gmap string pyval)
    (X_train : DataFrame) (y_train : list string) : Prop :=
  Forall in_table y_train
  ∧ constructible c kwargs
  ∧ rows X_train ≠ []
  ∧ length (rows X_train) = length y_train
  ∧ ∀ ws, sample_weights y_train = Ok ws →
          fit_refuses (unfitted c kwargs) X_train (str_array y_train) (Some ws) = None.

(** When the activity stage produces its matrix: the classifier returns
    and the library does not object to the prediction for the test frame,
    which has a row at least. *)
Definition activity_can_run `{Collaborators} (c : estimator_class) (kwargs : gmap string pyval)
    (X_train X_test : DataFrame) (y_train : list string) : Prop :=
  classifier_can_run c kwargs X_train y_train
  ∧ rows X_test ≠ []
  ∧ ∀ ws, sample_weights y_train = Ok ws →
          predict_refuses (fitted_classifier c kwargs X_train y_train ws) X_test = None.

(** ** Further example inputs *)

(** A heap holding one caller dictionary, [{"max_depth": 3}]. *)
Definition st_depth : state := {| heap := [{["max_depth" := PyInt 3]}]; log := [] |}.


(** Three test labels, all null. *)
Definition y_null3 : target := [None; None; None].

(** A frame with the first column of [X2] only. *)
Definition X1col : DataFrame := {| columns := ["acc_mean"]; rows := [[1]; [3]]%float |}.

(** What one column name contributes to the four sets. *)
Definition key_components `{Patterns} (key : string) : Components :=
  add_components no_components key.

(** * Properties *)

#[local] Set Warnings "-clear-no-such-hyp".

(** ** The heap *)

Lemma lookup_new (h : list (gmap string pyval)) c : ((h ++ [c])%list) !! length h = Some c.
Proof. by rewrite list_lookup_middle. Qed.

Lemma insert_new (h : list (gmap string pyval)) c c' :
  <[length h := c']> (h ++ [c])%list = (h ++ [c'])%list.
Proof.
  replace (length h) with (length h + 0) by lia.
  by rewrite insert_app_r.
Qed.

Lemma deref_alloc σ d : deref (alloc σ d) (length (heap σ)) = d.
Proof. unfold deref, alloc; simpl. by rewrite lookup_new. Qed.

Lemma alloc_lookup_old σ d p c : heap σ !! p = Some c → heap (alloc σ d) !! p = Some c.
Proof. intros Hp. unfold alloc; simpl. by apply lookup_app_l_Some. Qed.

Ltac run_heap :=
  unfold mbind, M_bind, mret, M_ret, dict_copy, dict_new, dict_setdefault, dict_kwargs,
    lift, deref; simpl;
  repeat (rewrite ?insert_new, ?lookup_new; simpl).

Ltac split_results :=
  repeat match goal with
  | |- context [match ?r with Ok _ => _ | Raise _ => _ end] => destruct r eqn:?; simpl
  end.

(** ** The four functions with their heap steps carried out *)

Section runs.
Context `{Collaborators}.

Lemma classifier_unfold m X y p σ :
  multipredictor.classifier m X y p σ =
  (sw ← sample_weights y;
   make ← getitem multipredictor.classifier_models m;
   model ← make (classifier_defaults (deref σ p));
   ClassifierModel_fit model X y sw,
   alloc σ (classifier_defaults (deref σ p))).
Proof.
  unfold multipredictor.classifier. run_heap.
  fold (deref σ p). fold (classifier_defaults (deref σ p)).
  fold (alloc σ (classifier_defaults (deref σ p))).
  split_results; done.
Qed.

Lemma remote_classifier_unfold m X y p σ :
  remote_multipredictor.classifier m X y p σ =
  (sw ← sample_weights y;
   if bool_decide (m = "LR") then
     e ← new LogisticRegression (classifier_defaults (deref σ p));
     ests ← get_estimators_ {| ovr_estimator := e; estimators_ := None |};
     ests ← result_map (λ estimator, fit estimator X (str_array y) (Some sw)) ests;
     Ok (ovr {| ovr_estimator := e; estimators_ := Some ests |})
   else
     make ← getitem remote_multipredictor.classifier_models m;
     model ← make (classifier_defaults (deref σ p));
     ClassifierModel_fit model X y sw,
   alloc σ (classifier_defaults (deref σ p))).
Proof.
  unfold remote_multipredictor.classifier. run_heap.
  fold (deref σ p). fold (classifier_defaults (deref σ p)).
  fold (alloc σ (classifier_defaults (deref σ p))).
  destruct (sample_weights y) as [sw|e]; simpl; [|done].
  case_bool_decide; run_heap; split_results; done.
Qed.

Lemma regressor_unfold m X Xt y yt p σ :
  let kwargs := setdefault "class_weight" (PyStr "balanced") (regressor_defaults m (deref σ p)) in
  multipredictor.regressor m X Xt y yt p σ =
  (fit_predict (getitem multipredictor.regressor_models m) kwargs X Xt y yt, alloc σ kwargs).
Proof.
  unfold multipredictor.regressor, regressor_defaults, fit_predict.
  do 2 case_bool_decide; run_heap; fold (deref σ p); split_results; done.
Qed.

Lemma remote_regressor_unfold m X Xt y yt p σ :
  let kwargs := regressor_defaults m (deref σ p) in
  remote_multipredictor.regressor m X Xt y yt p σ =
  (r ← fit_predict (getitem remote_multipredictor.regressor_models m) kwargs X Xt y yt;
   Ok (r.1.2, r2_score (to_numpy_ravel r.1.1) r.1.2, r.2),
   alloc σ kwargs).
Proof.
  unfold remote_multipredictor.regressor, regressor_defaults, fit_predict.
  do 2 case_bool_decide; run_heap; fold (deref σ p); split_results; done.
Qed.
End runs.

(** ** Defaults *)

Lemma setdefault_lookup k v d : setdefault k v d !! k = Some (default v (d !! k)).
Proof.
  unfold setdefault. destruct (d !! k) eqn:E; simpl; [done|]. by rewrite lookup_insert_eq.
Qed.

Lemma setdefault_lookup_ne k k' v d : k ≠ k' → setdefault k v d !! k' = d !! k'.
Proof.
  intros Hne. unfold setdefault. destruct (d !! k); [done|]. by rewrite lookup_insert_ne.
Qed.

Lemma setdefault_keeps k v d : keeps_caller d (setdefault k v d).
Proof.
  intros k' v' Hk'. destruct (decide (k = k')) as [->|Hne].
  - rewrite setdefault_lookup, Hk'. done.
  - by rewrite setdefault_lookup_ne.
Qed.

Lemma keeps_caller_trans d1 d2 d3 : keeps_caller d1 d2 → keeps_caller d2 d3 → keeps_caller d1 d3.
Proof. intros H12 H23 k v Hk. eauto. Qed.

Lemma keeps_caller_refl d : keeps_caller d d.
Proof. by intros k v. Qed.

Create HintDb defaults.
#[local] Hint Resolve setdefault_keeps keeps_caller_refl : defaults.

Lemma classifier_defaults_keeps d : keeps_caller d (classifier_defaults d).
Proof. unfold classifier_defaults. eauto using keeps_caller_trans with defaults. Qed.

Lemma regressor_defaults_keeps m d : keeps_caller d (regressor_defaults m d).
Proof.
  unfold regressor_defaults. repeat case_bool_decide;
    eauto 10 using keeps_caller_trans with defaults.
Qed.

Ltac lookup_defaults :=
  repeat first
    [ rewrite setdefault_lookup
    | rewrite setdefault_lookup_ne by (intros ?; discriminate) ].

Section frame.
Context `{Collaborators}.

(** C10: [classifier] and [regressor] of both scripts work on a copy of
    [params]: a dictionary [d] that the caller passes as the object [p]
    holds exactly [d] again when the call is over, whether it returned or
    raised. *)
Theorem params_left_unchanged m X Xt (ys : list string) (y yt : target) p σ d :
  heap σ !! p = Some d →
  heap (multipredictor.classifier m X ys p σ).2 !! p = Some d
  ∧ heap (multipredictor.regressor m X Xt y yt p σ).2 !! p = Some d
  ∧ heap (remote_multipredictor.classifier m X ys p σ).2 !! p = Some d
  ∧ heap (remote_multipredictor.regressor m X Xt y yt p σ).2 !! p = Some d.
Proof.
  intros Hp.
  rewrite classifier_unfold, remote_classifier_unfold, regressor_unfold, remote_regressor_unfold.
  simpl. repeat split; by apply alloc_lookup_old.
Qed.
End frame.

Lemma params_left_unchanged_witness :
  heap st1 !! 0 = Some {["n_estimators" := PyInt 5]}
  ∧ heap (multipredictor.regressor (H := reference_collaborators) "RF" X2 X2
            y_first y_second 0 st1).2 !! 0
    = Some {["n_estimators" := PyInt 5]}.
Proof.
  split; [reflexivity|].
  apply (params_left_unchanged (H := reference_collaborators) "RF" X2 X2 ["run"]
           y_first y_second 0 st1).
  reflexivity.
Defined.

(** ** Filtering, fitting *)

Lemma filter_rows_eligible {A} (X : list A) (y : target) r :
  filter_rows X (is_not_null y) = Ok r → r = eligible_rows X y ∧ length X = length y.
Proof.
  revert y r. induction X as [|x X IH]; intros [|v y] r; simpl; try done.
  - by intros [= <-].
  - destruct (filter_rows X (is_not_null y)) as [r'|e] eqn:Hr; simpl; [|done].
    destruct (IH _ _ Hr) as [-> ->]. unfold eligible_rows. simpl.
    destruct v; intros [= <-]; done.
Qed.

Lemma filter_rows_total {A} (X : list A) (y : target) :
  length X = length y → filter_rows X (is_not_null y) = Ok (eligible_rows X y).
Proof.
  revert y. induction X as [|x X IH]; intros [|v y]; simpl; try done.
  intros [= Hlen]. rewrite (IH _ Hlen). simpl. unfold eligible_rows. simpl. by destruct v.
Qed.

Lemma eligible_rows_self (y : target) : eligible_rows y y = map Some (eligible_labels y).
Proof.
  unfold eligible_rows, eligible_labels.
  induction y as [|[v|] y IH]; simpl; [done| |done]. f_equal. exact IH.
Qed.

Lemma filter_labels (y : target) :
  filter_rows y (is_not_null y) = Ok (map Some (eligible_labels y)).
Proof. by rewrite filter_rows_total, eligible_rows_self. Qed.

Lemma to_numpy_ravel_Some (l : list float) : to_numpy_ravel (map Some l) = l.
Proof. unfold to_numpy_ravel. induction l; simpl; by f_equal. Qed.

Section fit_predict.
Context `{Collaborators}.

Lemma fit_Ok self X y sw model :
  fit self X y sw = Ok model →
  model = {| est_class := est_class self; est_params := est_params self;
             fitted := Some {| fit_X := X; fit_y := y; fit_sample_weight := sw |} |}
  ∧ length (rows X) ≠ 0 ∧ length (rows X) = ndarray_len y
  ∧ weights_match (length (rows X)) sw = true
  ∧ fit_refuses self X y sw = None.
Proof.
  unfold fit, check_X_y. destruct (fit_refuses self X y sw); [done|].
  repeat case_bool_decide; simpl; try done.
  destruct (weights_match _ _); simpl; [|done]. intros [= <-]. split_and!; auto.
Qed.

Lemma new_Ok c kwargs e :
  new c kwargs = Ok e → e = {| est_class := c; est_params := kwargs; fitted := None |}.
Proof. unfold new. case_bool_decide; [|done]. by intros [= <-]. Qed.

Lemma regressor_models_constructor m :
  regressor_constructor (getitem multipredictor.regressor_models m).
Proof.
  intros f. unfold getitem, multipredictor.regressor_models.
  destruct (decide (m = "LR")) as [->|]; [intros [= <-]; eauto|].
  destruct (decide (m = "RF")) as [->|]; [intros [= <-]; eauto|].
  destruct (decide (m = "LGBM")) as [->|]; [intros [= <-]; eauto|].
  by rewrite !lookup_insert_ne, lookup_empty by done.
Qed.

(** What a successful [fit_predict] has done. *)
Lemma fit_predict_Ok make kwargs X Xt y yt ytf yp model :
  regressor_constructor make →
  fit_predict make kwargs X Xt y yt = Ok (ytf, yp, model) →
  make = Ok (new (est_class model))
  ∧ est_params model = kwargs
  ∧ fitted model = Some {| fit_X := {| columns := columns X;
                                       rows := eligible_rows (rows X) y |};
                           fit_y := float_array (eligible_labels y);
                           fit_sample_weight := None |}
  ∧ ytf = map Some (eligible_labels yt)
  ∧ yp = predict_values model {| columns := columns Xt; rows := eligible_rows (rows Xt) yt |}
  ∧ eligible_rows (rows X) y ≠ [] ∧ eligible_rows (rows Xt) yt ≠ [].
Proof.
  intros Hmake. unfold fit_predict, DataFrame_filter.
  destruct make as [f|e]; simpl; [|done]. destruct (Hmake f eq_refl) as [c ->].
  destruct (new c kwargs) as [e|e] eqn:Hnew; simpl; [|done]. apply new_Ok in Hnew as ->.
  destruct (filter_rows (rows X) _) as [Xf|e] eqn:HX; simpl; [|done].
  apply filter_rows_eligible in HX as [-> _].
  rewrite !filter_labels. simpl. rewrite to_numpy_ravel_Some.
  destruct (fit _ _ _ _) as [model'|e] eqn:Hfit; simpl; [|done].
  apply fit_Ok in Hfit as (-> & Hne & _). simpl in Hne.
  destruct (filter_rows (rows Xt) _) as [Xtf|e] eqn:HXt; simpl; [|done].
  apply filter_rows_eligible in HXt as [-> _].
  unfold predict, predict_with. simpl. destruct (predict_refuses _ _); [done|].
  case_bool_decide as Hz; simpl; [done|].
  simpl in Hz. intros [= <- <- <-]. split_and!; try done.
  - intros Heq. by rewrite Heq in Hne.
  - intros Heq. by rewrite Heq in Hz.
Qed.

Lemma fit_predict_params m kwargs X Xt y yt r :
  fit_predict (getitem multipredictor.regressor_models m) kwargs X Xt y yt = Ok r →
  est_params r.2 = kwargs.
Proof.
  destruct r as [[ytf yp] model]. intros Hr.
  by apply fit_predict_Ok in Hr as (_ & ? & _); [|apply regressor_models_constructor].
Qed.
End fit_predict.

(** ** Effective hyperparameters *)

Section effective.
Context `{Collaborators}.

Lemma classifier_effective m X y p σ :
  effective_params (multipredictor.classifier m X y p) σ = classifier_defaults (deref σ p).
Proof. unfold effective_params. rewrite classifier_unfold. apply deref_alloc. Qed.

Lemma remote_classifier_effective m X y p σ :
  effective_params (remote_multipredictor.classifier m X y p) σ
  = classifier_defaults (deref σ p).
Proof. unfold effective_params. rewrite remote_classifier_unfold. apply deref_alloc. Qed.

Lemma regressor_effective m X Xt y yt p σ :
  effective_params (multipredictor.regressor m X Xt y yt p) σ
  = setdefault "class_weight" (PyStr "balanced") (regressor_defaults m (deref σ p)).
Proof. unfold effective_params. rewrite regressor_unfold. apply deref_alloc. Qed.

Lemma remote_regressor_effective m X Xt y yt p σ :
  effective_params (remote_multipredictor.regressor m X Xt y yt p) σ
  = regressor_defaults m (deref σ p).
Proof. unfold effective_params. rewrite remote_regressor_unfold. apply deref_alloc. Qed.

Lemma classifier_defaults_ok d : classifier_params_ok d (classifier_defaults d).
Proof.
  split; [apply classifier_defaults_keeps|].
  unfold or_default, classifier_defaults. split; by lookup_defaults.
Qed.

Lemma regressor_defaults_ok m d : regressor_params_ok m d (regressor_defaults m d).
Proof.
  split; [apply regressor_defaults_keeps|].
  unfold or_default, regressor_defaults.
  repeat case_bool_decide; subst; try done; repeat split; by lookup_defaults.
Qed.

Lemma regressor_params_ok_class_weight m d eff :
  regressor_params_ok m d eff →
  regressor_params_ok m d (setdefault "class_weight" (PyStr "balanced") eff).
Proof.
  unfold regressor_params_ok, or_default. intros (Hk & Hj & Hs & Hn).
  split; [eauto using keeps_caller_trans, setdefault_keeps|].
  repeat case_bool_decide; lookup_defaults; done.
Qed.
End effective.

(** C3, as stated, fails: [regressor] for the LR family with an empty
    [params] builds its estimator without any [random_state]. *)
Lemma lr_regressor_gets_no_seed :
  effective_params
    (multipredictor.regressor (H := reference_collaborators) "LR" X2 X2
       y_first y_second 0) st0 !! "random_state" = None.
Proof. rewrite regressor_effective. reflexivity. Qed.

(** ** Sample weights *)

Lemma class_weights_outside label : ¬ in_table label → class_weights !! label = None.
Proof.
  unfold in_table, class_weights. intros Hl.
  rewrite !lookup_insert_ne, lookup_empty; [done|..]; intros <-; apply Hl; set_solver.
Qed.

Lemma class_weights_inside label :
  in_table label → ∃ w, class_weights !! label = Some w ∧ positive_weight w.
Proof.
  unfold in_table. rewrite !elem_of_cons, elem_of_nil.
  intros [->|[->|[->|[]]]]; eexists; split; reflexivity.
Qed.

Lemma sample_weights_cons label y :
  sample_weights (label :: y)
  = w ← getitem class_weights label; ws ← sample_weights y; Ok (w :: ws).
Proof. reflexivity. Qed.

Lemma getitem_Some {A} (d : gmap string A) k v : d !! k = Some v → getitem d k = Ok v.
Proof. unfold getitem. by intros ->. Qed.

Lemma getitem_None {A} (d : gmap string A) k : d !! k = None → getitem d k = Raise (KeyError k).
Proof. unfold getitem. by intros ->. Qed.

(** The weights of an array whose labels are all in the table. *)
Lemma sample_weights_Ok y :
  Forall in_table y →
  ∃ ws, sample_weights y = Ok ws
        ∧ Forall2 (λ label w, class_weights !! label = Some w) y ws
        ∧ Forall positive_weight ws.
Proof.
  induction 1 as [|label y Hl Hy (ws & Hws & H2 & Hpos)].
  - exists []. by split_and!.
  - destruct (class_weights_inside _ Hl) as (w & Hw & Hw0).
    exists (w :: ws). rewrite sample_weights_cons, (getitem_Some _ _ _ Hw), Hws.
    split_and!; [done|by constructor|by constructor].
Qed.

(** The first label outside the table stops the comprehension. *)
Lemma sample_weights_Raise y :
  ¬ Forall in_table y →
  ∃ label, label ∈ y ∧ ¬ in_table label ∧ sample_weights y = Raise (UnknownLabelError label).
Proof.
  induction y as [|l y IH]; intros Hy.
  - destruct Hy. constructor.
  - rewrite sample_weights_cons. destruct (decide (in_table l)) as [Hl|Hl].
    + destruct IH as (label & Hin & Hout & Hr); [by intros Hy'; apply Hy; constructor|].
      destruct (class_weights_inside _ Hl) as (w & Hw & _).
      exists label. rewrite (getitem_Some _ _ _ Hw), Hr.
      split_and!; [by apply elem_of_cons; right|done|done].
    + exists l. rewrite (getitem_None _ _ (class_weights_outside _ Hl)).
      split_and!; [by apply elem_of_cons; left|done|done].
Qed.

Section weights.
Context `{Collaborators}.

Lemma classifier_Raise_weights m X y p σ e :
  sample_weights y = Raise e →
  (multipredictor.classifier m X y p σ).1 = Raise e
  ∧ (remote_multipredictor.classifier m X y p σ).1 = Raise e.
Proof. intros Hy. rewrite classifier_unfold, remote_classifier_unfold. simpl. by rewrite Hy. Qed.

(** A native classifier that is returned was fitted on the whole training
    frame with the weight vector of its labels. *)
Lemma classifier_native_fit m X y p σ e ws :
  sample_weights y = Ok ws →
  (multipredictor.classifier m X y p σ).1 = Ok (native e)
  ∨ (remote_multipredictor.classifier m X y p σ).1 = Ok (native e) →
  fitted e = Some {| fit_X := X; fit_y := str_array y; fit_sample_weight := Some ws |}
  ∧ length ws = length (rows X).
Proof.
  intros Hy. rewrite classifier_unfold, remote_classifier_unfold. simpl. rewrite Hy. simpl.
  assert (∀ model, ClassifierModel_fit model X y ws = Ok (native e) →
    fitted e = Some {| fit_X := X; fit_y := str_array y; fit_sample_weight := Some ws |}
    ∧ length ws = length (rows X)) as Hfit.
  { intros [o|e0]; simpl; [done|].
    destruct (fit e0 _ _ _) as [e1|] eqn:Hf; simpl; [|done]. intros [= ->].
    apply fit_Ok in Hf as (-> & _ & _ & Hw & _). simpl in *. split; [done|].
    by apply bool_decide_eq_true in Hw. }
  intros [Hr|Hr].
  - destruct (getitem _ m) as [make|]; simpl in Hr; [|done].
    destruct (make _) as [model|]; simpl in Hr; [|done]. eauto.
  - case_bool_decide.
    + destruct (new _ _); simpl in Hr; done.
    + destruct (getitem _ m) as [make|]; simpl in Hr; [|done].
      destruct (make _) as [model|]; simpl in Hr; [|done]. eauto.
Qed.
End weights.

(** C4: the table of [classifier] maps run, jump and walk to 1/0.4, 1/0.024
    and 1/0.576 and nothing else; an array whose labels are all in the table
    gets, row by row, the weight of the row's label; an array with a label
    outside the table makes the weighting, and with it [classifier] of
    either script and any family, fail with the look-up error for that
    label. *)
Theorem sample_weighting_by_table (y : list string) :
  (class_weights !! "run" = Some (1 / 0.4)%float
   ∧ class_weights !! "jump" = Some (1 / 0.024)%float
   ∧ class_weights !! "walk" = Some (1 / 0.576)%float
   ∧ ∀ label, ¬ in_table label → class_weights !! label = None)
  ∧ (Forall in_table y →
     ∃ ws, sample_weights y = Ok ws
           ∧ Forall2 (λ label w, class_weights !! label = Some w) y ws)
  ∧ (¬ Forall in_table y →
     ∃ label, label ∈ y ∧ ¬ in_table label
       ∧ sample_weights y = Raise (UnknownLabelError label)
       ∧ ∀ (H : Collaborators) m X p σ,
           (multipredictor.classifier m X y p σ).1 = Raise (UnknownLabelError label)
           ∧ (remote_multipredictor.classifier m X y p σ).1
             = Raise (UnknownLabelError label)).
Proof.
  split; [|split].
  - split_and!; [reflexivity..|apply class_weights_outside].
  - intros Hy. destruct (sample_weights_Ok y Hy) as (ws & Hws & H2 & _). eauto.
  - intros Hy. destruct (sample_weights_Raise y Hy) as (label & Hin & Hout & Hr).
    exists label. split_and!; try done. intros. by apply classifier_Raise_weights.
Qed.

Lemma sample_weighting_by_table_witness :
  (Forall in_table ["walk"; "run"; "jump"]
   ∧ ∃ ws, sample_weights ["walk"; "run"; "jump"] = Ok ws
           ∧ Forall2 (λ label w, class_weights !! label = Some w) ["walk"; "run"; "jump"] ws)
  ∧ (¬ Forall in_table ["walk"; "standing"]
     ∧ ∃ label, label ∈ ["walk"; "standing"] ∧ ¬ in_table label
         ∧ sample_weights ["walk"; "standing"] = Raise (UnknownLabelError label)).
Proof.
  split.
  - assert (Forall in_table ["walk"; "run"; "jump"]) as Hy by compute_done.
    split; [exact Hy|].
    exact (proj1 (proj2 (sample_weighting_by_table ["walk"; "run"; "jump"])) Hy).
  - assert (¬ Forall in_table ["walk"; "standing"]) as Hy by compute_done.
    split; [exact Hy|].
    destruct (proj2 (proj2 (sample_weighting_by_table ["walk"; "standing"])) Hy)
      as (label & Hin & Hout & Hr & _).
    eauto.
Defined.

(** C9: for a label array within the table the weight vector exists, has
    one weight per row of the array, and every weight is strictly positive;
    a natively weighted classifier that [classifier] returns was fitted on
    the whole training frame with this vector, one weight per row of the
    frame. *)
Theorem sample_weight_vector_shape (y : list string) :
  Forall in_table y →
  ∃ ws, sample_weights y = Ok ws
        ∧ length ws = length y
        ∧ Forall positive_weight ws
        ∧ ∀ (H : Collaborators) m X p σ e,
            (multipredictor.classifier m X y p σ).1 = Ok (native e)
            ∨ (remote_multipredictor.classifier m X y p σ).1 = Ok (native e) →
            (fit_sample_weight <$> fitted e) = Some (Some ws)
            ∧ (fit_X <$> fitted e) = Some X
            ∧ length ws = length (rows X).
Proof.
  intros Hy. destruct (sample_weights_Ok y Hy) as (ws & Hws & H2 & Hpos).
  exists ws. split_and!; [done|symmetry; by eapply Forall2_length|done|].
  intros H m X p σ e Hr.
  destruct (classifier_native_fit m X y p σ e ws Hws Hr) as [-> Hlen]. done.
Qed.

Lemma sample_weight_vector_shape_witness :
  Forall in_table ["walk"; "run"; "jump"; "walk"]
  ∧ ∃ ws, sample_weights ["walk"; "run"; "jump"; "walk"] = Ok ws
          ∧ length ws = 4
          ∧ Forall positive_weight ws.
Proof.
  assert (Forall in_table ["walk"; "run"; "jump"; "walk"]) as Hy by compute_done.
  split; [exact Hy|].
  destruct (sample_weight_vector_shape _ Hy) as (ws & Hws & Hlen & Hpos & _).
  exists ws. by split_and!.
Defined.

(** ** The one-vs-rest classifier of the LR family *)

Lemma classifier_models_LR `{Collaborators} :
  getitem multipredictor.classifier_models "LR"
  = Ok (λ params, e ← new LogisticRegression params;
                  Ok (ovr {| ovr_estimator := e; estimators_ := None |})).
Proof. reflexivity. Qed.

(** C1: for the LR family neither script fits any binary sub-estimator
    with the weight vector, and neither ever returns a model.  In
    remote_multipredictor.py the loop over [model.estimators_] runs on a
    wrapper that was never fitted, so reading the attribute raises; in
    multipredictor.py the weight vector is passed to the wrapper's own
    [fit], which refuses it.  On the input below the two calls end as
    shown. *)
Theorem lr_classifier_fits_no_sub_estimator :
  (∀ (H : Collaborators) X y p σ,
     is_ok (remote_multipredictor.classifier "LR" X y p σ).1 = false
     ∧ is_ok (multipredictor.classifier "LR" X y p σ).1 = false)
  ∧ (remote_multipredictor.classifier (H := reference_collaborators) "LR" X2
       ["run"; "walk"] 0 st0).1 = Raise (AttributeError "estimators_")
  ∧ (multipredictor.classifier (H := reference_collaborators) "LR" X2
       ["run"; "walk"] 0 st0).1
    = Raise (ValueError "Passing extra keyword arguments to OneVsRestClassifier.fit").
Proof.
  split; [|split; reflexivity].
  intros H X y p σ. rewrite classifier_unfold, remote_classifier_unfold. simpl.
  destruct (sample_weights y) as [sw|e]; simpl; [|done].
  rewrite classifier_models_LR. simpl.
  destruct (new LogisticRegression _) as [e|e]; simpl; done.
Qed.

(** ** Null filtering in [regressor] *)

Lemma eligible_rows_elem {A} (X : list A) (y : target) x :
  x ∈ eligible_rows X y ↔ ∃ i v, X !! i = Some x ∧ y !! i = Some (Some v).
Proof.
  unfold eligible_rows. rewrite list_elem_of_omap. split.
  - intros ([x' v] & Hin & Hx). simpl in Hx. destruct v as [v|]; [|done].
    injection Hx as ->. apply list_elem_of_lookup in Hin as [i Hi].
    apply lookup_zip_with_Some in Hi as (x1 & v1 & [= <- <-] & HX & Hy). eauto.
  - intros (i & v & HX & Hy). exists (x, Some v). split; [|done].
    apply list_elem_of_lookup. exists i. apply lookup_zip_with_Some. eauto.
Qed.

Lemma eligible_rows_all_null {A} (X : list A) (y : target) :
  Forall (eq None) y → eligible_rows X y = [].
Proof.
  intros Hy. destruct (eligible_rows X y) as [|x r] eqn:Hr; [done|].
  assert (x ∈ eligible_rows X y) as Hx by (rewrite Hr; apply elem_of_cons; by left).
  apply eligible_rows_elem in Hx as (i & v & _ & Hi).
  by pose proof (Forall_lookup_1 _ _ _ _ Hy Hi).
Qed.

Lemma new_class_inj `{Collaborators} c1 c2 : new c1 = new c2 → c1 = c2.
Proof.
  intros Heq. apply (f_equal (λ f, f ∅)) in Heq. unfold new in Heq.
  rewrite !bool_decide_eq_true_2 in Heq by apply map_Forall_empty. by injection Heq.
Qed.

Section conditioning.
Context `{Collaborators}.


(** C2 (amended): on identical inputs the two [classifier]s use the same
    effective hyperparameters and, for every family but LR, are the same
    computation; the two [regressor]s differ in one default, class_weight =
    "balanced", which only multipredictor.py adds, and when both return,
    their models are of the same class and were fitted on the same
    conditioned data. *)
Theorem variants_agree_up_to_class_weight m X Xt (ys : list string) (y yt : target) p σ :
  (m ≠ "LR" →
   multipredictor.classifier m X ys p σ = remote_multipredictor.classifier m X ys p σ)
  ∧ effective_params (multipredictor.classifier m X ys p) σ
    = effective_params (remote_multipredictor.classifier m X ys p) σ
  ∧ effective_params (multipredictor.regressor m X Xt y yt p) σ
    = setdefault "class_weight" (PyStr "balanced")
        (effective_params (remote_multipredictor.regressor m X Xt y yt p) σ)
  ∧ (∀ r1 r2,
       (multipredictor.regressor m X Xt y yt p σ).1 = Ok r1 →
       (remote_multipredictor.regressor m X Xt y yt p σ).1 = Ok r2 →
       est_class r1.2 = est_class r2.2 ∧ fitted r1.2 = fitted r2.2).
Proof.
  split_and!.
  - intros Hm. rewrite classifier_unfold, remote_classifier_unfold.
    by rewrite bool_decide_eq_false_2.
  - by rewrite classifier_effective, remote_classifier_effective.
  - by rewrite regressor_effective, remote_regressor_effective.
  - intros [[ytf1 yp1] m1] [[yp2 sc2] m2]. rewrite regressor_unfold, remote_regressor_unfold.
    simpl. intros H1.
    destruct (fit_predict _ (regressor_defaults _ _) _ _ _ _)
      as [[[ytf2 yp2'] m2']|e] eqn:H2; simpl; [|done].
    intros [= _ _ <-].
    apply fit_predict_Ok in H1 as (Hc1 & _ & Hf1 & _); [|apply regressor_models_constructor].
    apply fit_predict_Ok in H2 as (Hc2 & _ & Hf2 & _); [|apply regressor_models_constructor].
    split; [|by rewrite Hf1, Hf2].
    change (getitem remote_multipredictor.regressor_models m)
      with (getitem multipredictor.regressor_models m) in Hc2.
    rewrite Hc1 in Hc2. injection Hc2 as Hc. by apply new_class_inj.
Qed.
End conditioning.

(** C2, as stated, fails: on the same input the regressor of
    multipredictor.py is built with class_weight = "balanced" and the one of
    remote_multipredictor.py without a class weight. *)
Lemma regressors_differ_in_class_weight :
  (∃ y_test_filtered y_pred model,
     (multipredictor.regressor (H := reference_collaborators) "LGBM" X3 X3
        y_train3 y_test3 0 st0).1 = Ok (y_test_filtered, y_pred, model)
     ∧ est_params model !! "class_weight" = Some (PyStr "balanced"))
  ∧ (∃ y_pred y_score model,
       (remote_multipredictor.regressor (H := reference_collaborators) "LGBM" X3 X3
          y_train3 y_test3 0 st0).1 = Ok (y_pred, y_score, model)
       ∧ est_params model !! "class_weight" = None).
Proof. split; do 3 eexists; split; vm_compute; reflexivity. Qed.

Lemma variants_agree_up_to_class_weight_witness :
  "RF" ≠ "LR"
  ∧ multipredictor.classifier (H := reference_collaborators) "RF" X2 ["run"; "walk"] 0 st0
    = remote_multipredictor.classifier (H := reference_collaborators) "RF" X2
        ["run"; "walk"] 0 st0.
Proof.
  split; [discriminate|].
  destruct (variants_agree_up_to_class_weight (H := reference_collaborators) "RF" X2 X2
              ["run"; "walk"] y_first y_second 0 st0) as (Hsame & _).
  apply Hsame. discriminate.
Defined.

(** ** Stages of [main] *)

Ltac run_script :=
  unfold mbind, M_bind, mret, M_ret, lift, emit; simpl;
  repeat match goal with
  | |- context [match ?c with (_, _) => _ end] => destruct c as [[?|?] ?] eqn:?; simpl
  | |- context [match ?r with Ok _ => _ | Raise _ => _ end] => destruct r eqn:?; simpl
  end.

Section stages.
Context `{Collaborators}.

Lemma fit_predict_all_null make kwargs X Xt (y yt : target) :
  regressor_constructor make → Forall (eq None) y →
  ∃ e, fit_predict make kwargs X Xt y yt = Raise e.
Proof.
  intros Hmake Hy. destruct (fit_predict _ _ _ _ _ _) as [[[ytf yp] model]|e] eqn:Hr; [|eauto].
  apply fit_predict_Ok in Hr as (_ & _ & _ & _ & _ & Hne & _); [|done].
  by rewrite eligible_rows_all_null in Hne.
Qed.

(** A regression stage whose train labels are all null raises and leaves
    the log as it was. *)
Lemma regressor_run_all_null run m feature X Xt (y yt : target) hp σ :
  Forall (eq None) y →
  ∃ e d, multipredictor.regressor_run run m feature X Xt y yt hp σ = (Raise e, alloc σ d).
Proof.
  intros Hy.
  unfold multipredictor.regressor_run, multipredictor._regressor_script, mbind, M_bind.
  rewrite regressor_unfold.
  destruct (fit_predict_all_null (getitem multipredictor.regressor_models m)
    (setdefault "class_weight" (PyStr "balanced") (regressor_defaults m (deref σ hp)))
    X Xt y yt (regressor_models_constructor m) Hy) as [e ->].
  eauto.
Qed.

(** The matrix that the activity stage of either script produces. *)
Lemma activity_run_Ok model activity Xtr Xte (ytr yte : list string) hp σ cm :
  (multipredictor.activity_run model activity Xtr Xte ytr yte hp σ).1 = Ok cm
  ∨ (remote_multipredictor.activity_run model activity Xtr Xte ytr yte hp σ).1 = Ok cm →
  ∃ y_pred,
    cm = {| cm_labels := unique_maintain_order activity;
            cm_counts :=
              map (λ t, map (λ p, length (filter (λ tp, tp = (t, p)) (zip yte y_pred)))
                     (unique_maintain_order activity))
                (unique_maintain_order activity) |}.
Proof.
  unfold multipredictor.activity_run, remote_multipredictor.activity_run, confusion_matrix.
  intros [Hr|Hr]; revert Hr; run_script; intros; simplify_eq; eauto.
Qed.
End stages.

(** ** Labels in first-occurrence order *)

Lemma unique_from_elem seen xs x :
  x ∈ unique_maintain_order_from seen xs ↔ x ∈ xs ∧ x ∉ seen.
Proof.
  revert seen. induction xs as [|a xs IH]; intros seen; simpl.
  - rewrite elem_of_nil. naive_solver.
  - case_bool_decide as Ha.
    + rewrite IH, elem_of_cons. naive_solver.
    + rewrite !elem_of_cons, IH, elem_of_cons.
      destruct (decide (x = a)) as [->|]; naive_solver.
Qed.

Lemma unique_from_NoDup seen xs : NoDup (unique_maintain_order_from seen xs).
Proof.
  revert seen. induction xs as [|a xs IH]; intros seen; simpl; [constructor|].
  case_bool_decide; [done|]. constructor; [|done].
  rewrite unique_from_elem, elem_of_cons. naive_solver.
Qed.

Lemma unique_from_order seen xs r1 x r2 y :
  unique_maintain_order_from seen xs = (r1 ++ x :: r2)%list → y ∈ r2 →
  ∃ l1 l2, xs = (l1 ++ y :: l2)%list ∧ (y ∉ l1) ∧ x ∈ l1.
Proof.
  revert seen r1. induction xs as [|a xs IH]; intros seen r1; simpl.
  - by destruct r1.
  - case_bool_decide as Ha.
    + intros Hu Hy. destruct (IH _ _ Hu Hy) as (l1 & l2 & -> & Hy1 & Hx1).
      assert (y ≠ a) as Hya.
      { intros ->. assert (a ∈ unique_maintain_order_from seen (l1 ++ a :: l2)) as Hin.
        { rewrite Hu, elem_of_app, elem_of_cons. auto. }
        apply unique_from_elem in Hin. naive_solver. }
      exists (a :: l1), l2. rewrite !elem_of_cons. naive_solver.
    + intros Hu Hy.
      assert (y ∈ unique_maintain_order_from (a :: seen) xs → y ≠ a) as Hya.
      { rewrite unique_from_elem, elem_of_cons. naive_solver. }
      destruct r1 as [|b r1]; simpl in Hu; injection Hu as -> Hu.
      * rewrite <- Hu in Hy. specialize (Hya Hy).
        apply unique_from_elem in Hy as [Hy _].
        apply list_elem_of_split_l in Hy as (l1 & l2 & -> & Hy1).
        exists (x :: l1), l2. rewrite !elem_of_cons. naive_solver.
      * destruct (IH _ _ Hu Hy) as (l1 & l2 & -> & Hy1 & Hx1).
        assert (y ≠ b) as Hya'.
        { apply Hya. rewrite Hu, elem_of_app, elem_of_cons. auto. }
        exists (b :: l1), l2. rewrite !elem_of_cons. naive_solver.
Qed.

Lemma unique_maintain_order_spec xs : first_occurrence_order (unique_maintain_order xs) xs.
Proof.
  unfold first_occurrence_order, unique_maintain_order. split_and!.
  - apply unique_from_NoDup.
  - intros x. rewrite unique_from_elem, elem_of_nil. naive_solver.
  - intros r1 x r2 y. apply unique_from_order.
Qed.

(** ** A regression target without any eligible row *)


(** ** Sorting and ordered dictionaries *)

Section sorting.
Context {A : Type} (le : A → A → bool).

Lemma insert_by_perm x l : insert_by le x l ≡ₚ x :: l.
Proof.
  induction l as [|y l IH]; simpl; [done|].
  destruct (le x y); [done|]. rewrite IH. apply Permutation_swap.
Qed.

Lemma sort_by_perm l : sort_by le l ≡ₚ l.
Proof.
  induction l as [|x l IH]; simpl; [done|]. by rewrite insert_by_perm, IH.
Qed.

Context (R : A → A → Prop).
Hypothesis le_true : ∀ a b, le a b = true → R a b.
Hypothesis le_false : ∀ a b, le a b = false → R b a.
Hypothesis R_trans : ∀ a b c, R a b → R b c → R a c.

Lemma insert_by_sorted x l : StronglySorted R l → StronglySorted R (insert_by le x l).
Proof.
  induction 1 as [|y l Hl IH Hy]; simpl.
  - repeat constructor.
  - destruct (le x y) eqn:Hxy.
    + constructor; [by constructor|]. constructor; [auto|].
      eapply Forall_impl; [exact Hy|]. simpl. eauto.
    + constructor; [done|]. rewrite insert_by_perm. constructor; [|done]. auto.
Qed.

Lemma sort_by_sorted l : StronglySorted R (sort_by le l).
Proof. induction l as [|x l IH]; simpl; [constructor|by apply insert_by_sorted]. Qed.
End sorting.

Lemma sorted_by_value_reverse_sorted items : non_increasing (sorted_by_value_reverse items).
Proof.
  unfold non_increasing, sorted_by_value_reverse. apply sort_by_sorted.
  - intros a b Hab. by apply Qle_bool_iff.
  - intros a b Hab. apply Qlt_le_weak, Qnot_le_lt. intros Hle.
    apply Qle_bool_iff in Hle. congruence.
  - intros a b c Hab Hbc. by eapply Qle_trans.
Qed.

Lemma odict_set_fresh d k v : k ∉ d.*1 → odict_set d k v = (d ++ [(k, v)])%list.
Proof.
  induction d as [|[k' v'] d IH]; simpl; [done|].
  rewrite not_elem_of_cons. intros [Hne Hk]. rewrite bool_decide_eq_false_2 by done.
  by rewrite IH.
Qed.

Lemma odict_set_keys d k v :
  (odict_set d k v).*1 = if bool_decide (k ∈ d.*1) then d.*1 else (d.*1 ++ [k])%list.
Proof.
  induction d as [|[k' v'] d IH]; [done|].
  cbn [odict_set]. rewrite fmap_cons. cbn [fst].
  destruct (decide (k = k')) as [->|Hne].
  - rewrite !bool_decide_eq_true_2; [done| |done]. apply elem_of_cons. by left.
  - rewrite (bool_decide_eq_false_2 (k = k')) by done. rewrite fmap_cons, IH. cbn [fst].
    destruct (decide (k ∈ d.*1)) as [Hin|Hout].
    + rewrite !bool_decide_eq_true_2; [done| |done]. apply elem_of_cons. by right.
    + rewrite !bool_decide_eq_false_2; [done| |done]. rewrite elem_of_cons. naive_solver.
Qed.

Lemma odict_set_NoDup d k v : NoDup d.*1 → NoDup (odict_set d k v).*1.
Proof.
  intros Hd. rewrite odict_set_keys. case_bool_decide; [done|].
  apply NoDup_app. split_and!; [done| |apply NoDup_singleton]. set_solver.
Qed.

Lemma odict_set_elem d k v kv : kv ∈ odict_set d k v → kv = (k, v) ∨ kv ∈ d.
Proof.
  induction d as [|[k' v'] d IH]; simpl.
  - rewrite list_elem_of_singleton. auto.
  - case_bool_decide; rewrite !elem_of_cons; naive_solver.
Qed.

Lemma odict_fold_NoDup acc items :
  NoDup acc.*1 → NoDup (foldl (λ d kv, odict_set d kv.1 kv.2) acc items).*1.
Proof.
  revert acc. induction items as [|kv items IH]; intros acc Hacc; simpl; [done|].
  by apply IH, odict_set_NoDup.
Qed.

Lemma odict_fold_elem acc items kv :
  kv ∈ foldl (λ d kv, odict_set d kv.1 kv.2) acc items → kv ∈ acc ∨ kv ∈ items.
Proof.
  revert acc. induction items as [|[k v] items IH]; intros acc; simpl; [auto|].
  intros [Hin|Hin]%IH; [|set_solver].
  apply odict_set_elem in Hin. set_solver.
Qed.

Lemma odict_fold_id (acc items : list (string * Q)) :
  NoDup ((acc ++ items)%list).*1 →
  foldl (λ d kv, odict_set d kv.1 kv.2) acc items = (acc ++ items)%list.
Proof.
  revert acc. induction items as [|[k v] items IH]; intros acc Hnd; simpl.
  - by rewrite app_nil_r.
  - rewrite odict_set_fresh.
    + rewrite IH; rewrite <- app_assoc; done.
    + rewrite fmap_app in Hnd. apply NoDup_app in Hnd as (_ & Hdisj & _).
      intros Hk. apply (Hdisj k Hk). simpl. apply elem_of_cons. by left.
Qed.

Lemma odict_of_items_NoDup items : NoDup (odict_of_items items).*1.
Proof. apply odict_fold_NoDup. constructor. Qed.

Lemma odict_of_items_elem items kv : kv ∈ odict_of_items items → kv ∈ items.
Proof. intros [Hin|Hin]%odict_fold_elem; [by apply elem_of_nil in Hin|done]. Qed.

Lemma odict_of_items_id items : NoDup items.*1 → odict_of_items items = items.
Proof. intros Hnd. by apply (odict_fold_id []). Qed.

Lemma result_map_Ok {A B} (f : A → result B) xs :
  (∀ x, x ∈ xs → ∃ y, f x = Ok y) →
  ∃ ys, result_map f xs = Ok ys ∧ Forall2 (λ x y, f x = Ok y) xs ys.
Proof.
  induction xs as [|x xs IH]; intros Hf; simpl.
  - exists []. by split.
  - destruct (Hf x) as [y Hy]; [apply elem_of_cons; by left|].
    destruct IH as (ys & Hys & H2); [intros x' Hx'; apply Hf, elem_of_cons; by right|].
    exists (y :: ys). rewrite Hy, Hys. simpl. split; [done|by constructor].
Qed.

(** ** Feature importances *)

Lemma argsort_indices a : argsort a ≡ₚ seq 0 (length a).
Proof. apply sort_by_perm. Qed.

Lemma importance_item_Ok (indices : list nat) (names : list string) (fi : list Q) i kv :
  (j ← list_getitem indices i;
   name ← list_getitem names j;
   value ← list_getitem fi j;
   Ok (name, value)) = Ok kv →
  ∃ j, names !! j = Some kv.1 ∧ fi !! j = Some kv.2.
Proof.
  unfold list_getitem. destruct (indices !! i) as [j|]; simpl; [|done].
  destruct (names !! j) as [name|] eqn:Hn; simpl; [|done].
  destruct (fi !! j) as [v|] eqn:Hv; simpl; [|done].
  intros [= <-]. eauto.
Qed.

Lemma importance_item_total (indices : list nat) (names : list string) (fi : list Q)
    (i : nat) :
  indices ≡ₚ seq 0 (length fi) → (length fi ≤ length names)%nat → i ∈ seq 0 (length fi) →
  ∃ kv, (j ← list_getitem indices i;
         name ← list_getitem names j;
         value ← list_getitem fi j;
         Ok (name, value)) = Ok kv.
Proof.
  intros Hperm Hlen Hi. apply elem_of_seq in Hi as [_ Hi]. simpl in Hi.
  assert (length indices = length fi) as Hl by (by rewrite Hperm, length_seq).
  destruct (lookup_lt_is_Some_2 indices i) as [j Hj]; [lia|].
  assert (j < length fi) as Hjn.
  { apply list_elem_of_lookup_2 in Hj. rewrite Hperm in Hj. apply elem_of_seq in Hj. lia. }
  destruct (lookup_lt_is_Some_2 names j) as [name Hname]; [lia|].
  destruct (lookup_lt_is_Some_2 fi j) as [v Hv]; [lia|].
  exists (name, v). unfold list_getitem. rewrite Hj. simpl. rewrite Hname. simpl.
  by rewrite Hv.
Qed.

Section importances.
Context `{Collaborators}.

(** C8: for a fitted tree-based model and a frame with a column per
    importance, [_feature_importances] of either script returns a mapping
    from feature names to their importances, its entries in non-increasing
    order of importance. *)
Theorem feature_importances_sorted (model : RegressorModel) (X_train : DataFrame) :
  tree_based (est_class model) = true →
  is_Some (fitted model) →
  (length (feature_importances_ model) ≤ length (columns X_train))%nat →
  ∃ d, multipredictor._feature_importances model X_train = Ok d
       ∧ remote_multipredictor._feature_importances model X_train = Ok d
       ∧ non_increasing d
       ∧ importance_mapping model X_train d.
Proof.
  intros Htree [f Hf] Hlen.
  change (remote_multipredictor._feature_importances model X_train)
    with (multipredictor._feature_importances model X_train).
  unfold multipredictor._feature_importances, get_feature_importances_.
  rewrite Htree, Hf. simpl.
  set (fi := feature_importances_ model) in *.
  assert (rev (argsort fi) ≡ₚ seq 0 (length fi)) as Hperm
    by (by rewrite <- Permutation_rev, argsort_indices).
  destruct (result_map_Ok
    (λ i, j ← list_getitem (rev (argsort fi)) i;
          name ← list_getitem (columns X_train) j;
          value ← list_getitem fi j;
          Ok (name, value)) (seq 0 (length fi))) as (items & -> & Hitems).
  { intros i Hi. by apply importance_item_total. }
  simpl. eexists. split; [done|]. split; [done|].
  assert (NoDup (sorted_by_value_reverse (odict_of_items items)).*1) as Hnd.
  { unfold sorted_by_value_reverse. rewrite sort_by_perm. apply odict_of_items_NoDup. }
  rewrite (odict_of_items_id _ Hnd). split; [apply sorted_by_value_reverse_sorted|].
  split; [done|]. intros name v Hin.
  unfold sorted_by_value_reverse in Hin. rewrite sort_by_perm in Hin.
  apply odict_of_items_elem in Hin.
  apply list_elem_of_lookup in Hin as [n Hn].
  destruct (Forall2_lookup_r _ _ _ _ _ Hitems Hn) as (i & _ & Hi).
  by apply importance_item_Ok in Hi.
Qed.
End importances.

Lemma feature_importances_sorted_witness :
  tree_based (est_class forest2) = true
  ∧ is_Some (fitted forest2)
  ∧ multipredictor._feature_importances (H := reference_collaborators) forest2 X2
    = Ok [("gyro_mean", 1%Q); ("acc_mean", 0%Q)].
Proof.
  split; [reflexivity|]. split; [by eexists|].
  destruct (feature_importances_sorted (H := reference_collaborators) forest2 X2)
    as (d & Hd & _); [reflexivity|by eexists|simpl; lia|].
  vm_compute. reflexivity.
Defined.

(** * Further properties *)

(** ** When [regressor] returns and how it fails *)

Lemma filter_rows_mismatch {A} (X : list A) (y : target) :
  length X ≠ length y → filter_rows X (is_not_null y) = Raise ShapeError.
Proof.
  revert y. induction X as [|x X IH]; intros [|v y] Hlen; simpl in *; try done.
  rewrite IH by lia. done.
Qed.

Lemma eligible_lengths {A} (X : list A) (y : target) :
  length X = length y → length (eligible_rows X y) = length (eligible_labels y).
Proof.
  unfold eligible_rows, eligible_labels. revert y.
  induction X as [|x X IH]; intros [|[v|] y] Hlen; simpl in *; try done.
  - f_equal. apply IH. lia.
  - apply IH. lia.
Qed.

Lemma regressor_models_lookup `{Collaborators} m :
  getitem multipredictor.regressor_models m
  = match regressor_class m with
    | Some c => Ok (new c)
    | None => Raise (KeyError m)
    end.
Proof.
  unfold regressor_class, getitem, multipredictor.regressor_models.
  repeat case_bool_decide; subst; try reflexivity.
  by rewrite !lookup_insert_ne, lookup_empty by done.
Qed.

Lemma remote_regressor_models_lookup `{Collaborators} m :
  getitem remote_multipredictor.regressor_models m
  = match regressor_class m with
    | Some c => Ok (new c)
    | None => Raise (KeyError m)
    end.
Proof. apply regressor_models_lookup. Qed.

Section regressor_outcome.
Context `{Collaborators}.

Lemma new_constructible c kwargs :
  constructible c kwargs →
  new c kwargs = Ok {| est_class := c; est_params := kwargs; fitted := None |}.
Proof. intros Hc. unfold new. by rewrite bool_decide_eq_true_2. Qed.

Lemma new_not_constructible c kwargs :
  ¬ constructible c kwargs →
  new c kwargs = Raise (TypeError "__init__() got an unexpected keyword argument").
Proof. intros Hc. unfold new. by rewrite bool_decide_eq_false_2. Qed.

(** Every way [regressor] can go once the class is known, in the order in
    which the script reaches the steps. *)
Lemma fit_predict_outcome c kwargs X Xt (y yt : target) :
  fit_predict (Ok (new c)) kwargs X Xt y yt =
  if bool_decide (constructible c kwargs) then
    if bool_decide (length (rows X) = length y) then
      match fit_refuses (unfitted c kwargs) (eligible_frame X y)
              (float_array (eligible_labels y)) None with
      | Some e => Raise e
      | None =>
          if bool_decide (eligible_rows (rows X) y = []) then Raise zero_samples
          else if bool_decide (length (rows Xt) = length yt) then
            match predict_refuses (fitted_regressor c kwargs X y) (eligible_frame Xt yt) with
            | Some e => Raise e
            | None =>
                if bool_decide (eligible_rows (rows Xt) yt = []) then Raise zero_samples
                else Ok (map Some (eligible_labels yt),
                         predict_values (fitted_regressor c kwargs X y) (eligible_frame Xt yt),
                         fitted_regressor c kwargs X y)
            end
          else Raise ShapeError
      end
    else Raise ShapeError
  else Raise (TypeError "__init__() got an unexpected keyword argument").
Proof.
  unfold fit_predict, unfitted, fitted_regressor, eligible_frame. simpl.
  case_bool_decide as Hc; [rewrite new_constructible by done|by rewrite new_not_constructible].
  simpl. unfold DataFrame_filter.
  case_bool_decide as HX; [|by rewrite (filter_rows_mismatch (rows X) y HX)].
  rewrite (filter_rows_total _ _ HX), !filter_labels. simpl. rewrite to_numpy_ravel_Some.
  unfold fit, check_X_y. simpl.
  destruct (fit_refuses _ _ _ _) as [e|]; [done|].
  destruct (eligible_rows (rows X) y) as [|x r] eqn:Hr.
  { by rewrite bool_decide_eq_true_2. }
  rewrite (bool_decide_eq_false_2 (length (x :: r) = 0)) by done.
  rewrite (bool_decide_eq_false_2 (x :: r = [])) by done.
  rewrite bool_decide_eq_false_2
    by (rewrite <- Hr, (eligible_lengths _ _ HX); intros Hne; by apply Hne).
  simpl.
  case_bool_decide as HXt; [|by rewrite (filter_rows_mismatch (rows Xt) yt HXt)].
  rewrite (filter_rows_total _ _ HXt). simpl.
  unfold predict, predict_with. simpl.
  destruct (predict_refuses _ _) as [e|]; [done|].
  destruct (eligible_rows (rows Xt) yt) as [|xt rt] eqn:Hrt.
  { by rewrite bool_decide_eq_true_2. }
  rewrite (bool_decide_eq_false_2 (length (xt :: rt) = 0)) by done.
  by rewrite (bool_decide_eq_false_2 (xt :: rt = [])) by done.
Qed.

End regressor_outcome.

Section regressor_behaviour.
Context `{Collaborators}.

Lemma regressor_result m X Xt (y yt : target) p σ :
  (multipredictor.regressor m X Xt y yt p σ).1
  = fit_predict (getitem multipredictor.regressor_models m)
      (effective_params (multipredictor.regressor m X Xt y yt p) σ) X Xt y yt.
Proof. rewrite regressor_effective. by rewrite regressor_unfold. Qed.

Lemma remote_regressor_result m X Xt (y yt : target) p σ :
  (remote_multipredictor.regressor m X Xt y yt p σ).1
  = (r ← fit_predict (getitem remote_multipredictor.regressor_models m)
           (effective_params (remote_multipredictor.regressor m X Xt y yt p) σ) X Xt y yt;
     Ok (r.1.2, r2_score (to_numpy_ravel r.1.1) r.1.2, r.2)).
Proof. rewrite remote_regressor_effective. by rewrite remote_regressor_unfold. Qed.

Lemma fit_predict_unknown m kwargs X Xt (y yt : target) :
  regressor_class m = None →
  fit_predict (getitem multipredictor.regressor_models m) kwargs X Xt y yt
  = Raise (KeyError m).
Proof. intros Hm. by rewrite regressor_models_lookup, Hm. Qed.


(** X2: a family name other than LR, RF and LGBM makes [regressor] of
    either script raise the look-up error for that name, whatever the data
    and the hyperparameters; [classifier] raises it when the labels are all
    in the weight table (otherwise the label's error comes first). *)
Theorem unknown_family_is_a_key_error m X Xt (ys : list string) (y yt : target) p σ :
  m ∉ ["LR"; "RF"; "LGBM"] →
  (multipredictor.regressor m X Xt y yt p σ).1 = Raise (KeyError m)
  ∧ (remote_multipredictor.regressor m X Xt y yt p σ).1 = Raise (KeyError m)
  ∧ (Forall in_table ys →
     (multipredictor.classifier m X ys p σ).1 = Raise (KeyError m)
     ∧ (remote_multipredictor.classifier m X ys p σ).1 = Raise (KeyError m)).
Proof.
  rewrite !not_elem_of_cons. intros (Hlr & Hrf & Hlgbm & _).
  assert (regressor_class m = None) as Hm
    by (unfold regressor_class; by rewrite !bool_decide_eq_false_2).
  rewrite regressor_result, remote_regressor_result.
  change (getitem remote_multipredictor.regressor_models m)
    with (getitem multipredictor.regressor_models m).
  rewrite !fit_predict_unknown by done. split_and!; [done..|].
  intros Hys. destruct (sample_weights_Ok ys Hys) as (ws & Hws & _).
  rewrite classifier_unfold, remote_classifier_unfold. simpl. rewrite Hws. simpl.
  rewrite bool_decide_eq_false_2 by done.
  change (getitem remote_multipredictor.classifier_models m)
    with (getitem multipredictor.classifier_models m).
  assert (getitem multipredictor.classifier_models m = Raise (KeyError m)) as ->; [|done].
  unfold getitem, multipredictor.classifier_models.
  by rewrite !lookup_insert_ne, lookup_empty by done.
Qed.

Lemma not_constructible_key c (kwargs : gmap string pyval) k v :
  kwargs !! k = Some v → accepts c k = false → ¬ constructible c kwargs.
Proof. intros Hk Hacc Hc. specialize (Hc k v Hk). simpl in Hc. congruence. Qed.

(** X3: [regressor] of multipredictor.py always hands the keyword
    class_weight to the constructor; for a family whose regressor class does
    not take that keyword the call raises a [TypeError] before any row is
    looked at, whatever the data. *)
Theorem class_weight_reaches_every_regressor m c X Xt (y yt : target) p σ :
  regressor_class m = Some c →
  accepts c "class_weight" = false →
  (multipredictor.regressor m X Xt y yt p σ).1
  = Raise (TypeError "__init__() got an unexpected keyword argument").
Proof.
  intros Hm Hacc. rewrite regressor_result, regressor_models_lookup, Hm.
  rewrite fit_predict_outcome, bool_decide_eq_false_2; [done|].
  rewrite regressor_effective.
  eapply not_constructible_key; [|done]. apply setdefault_lookup.
Qed.

(** X4: neither [regressor] drops a keyword of the caller: an entry of
    [params] that the constructor of the family's class does not take makes
    the call raise a [TypeError], whatever the data. *)
Theorem caller_keyword_reaches_constructor m c X Xt (y yt : target) p σ k v :
  regressor_class m = Some c →
  deref σ p !! k = Some v →
  accepts c k = false →
  (multipredictor.regressor m X Xt y yt p σ).1
  = Raise (TypeError "__init__() got an unexpected keyword argument")
  ∧ (remote_multipredictor.regressor m X Xt y yt p σ).1
    = Raise (TypeError "__init__() got an unexpected keyword argument").
Proof.
  intros Hm Hk Hacc. rewrite regressor_result, remote_regressor_result.
  rewrite remote_regressor_models_lookup, regressor_models_lookup, Hm.
  rewrite !fit_predict_outcome, !bool_decide_eq_false_2; [done|..].
  - rewrite remote_regressor_effective.
    eapply not_constructible_key; [|done]. by apply regressor_defaults_keeps.
  - rewrite regressor_effective.
    eapply not_constructible_key; [|done].
    by apply setdefault_keeps, regressor_defaults_keeps.
Qed.

(** X5: when no test row has a label and the fit on the eligible train rows
    goes through, [regressor] of either script raises at the prediction:
    the error is the one with which the fitted model refuses the test frame,
    which has no row left, and the fitted model is not returned. *)
Theorem regressor_needs_a_labelled_test_row m c X Xt (y yt : target) p σ :
  regressor_class m = Some c →
  length (rows X) = length y →
  eligible_rows (rows X) y ≠ [] →
  length (rows Xt) = length yt →
  Forall (eq None) yt →
  rows (eligible_frame Xt yt) = []
  ∧ (∀ kwargs, kwargs = effective_params (multipredictor.regressor m X Xt y yt p) σ →
     constructible c kwargs →
     fit_refuses (unfitted c kwargs) (eligible_frame X y)
       (float_array (eligible_labels y)) None = None →
     ∃ e, predict (fitted_regressor c kwargs X y) (eligible_frame Xt yt) = Raise e
          ∧ (multipredictor.regressor m X Xt y yt p σ).1 = Raise e)
  ∧ (∀ kwargs, kwargs = effective_params (remote_multipredictor.regressor m X Xt y yt p) σ →
     constructible c kwargs →
     fit_refuses (unfitted c kwargs) (eligible_frame X y)
       (float_array (eligible_labels y)) None = None →
     ∃ e, predict (fitted_regressor c kwargs X y) (eligible_frame Xt yt) = Raise e
          ∧ (remote_multipredictor.regressor m X Xt y yt p σ).1 = Raise e).
Proof.
  intros Hm HX Hy HXt Hyt. rewrite regressor_result, remote_regressor_result.
  rewrite remote_regressor_models_lookup, regressor_models_lookup, Hm.
  rewrite !fit_predict_outcome.
  rewrite !(bool_decide_eq_true_2 (length (rows X) = length y)) by done.
  rewrite !(bool_decide_eq_false_2 (eligible_rows (rows X) y = [])) by done.
  rewrite !(bool_decide_eq_true_2 (length (rows Xt) = length yt)) by done.
  rewrite !(bool_decide_eq_true_2 (eligible_rows (rows Xt) yt = []))
    by (by apply eligible_rows_all_null).
  split; [by apply eligible_rows_all_null|].
  split; intros kwargs <- Hc Hfit; rewrite bool_decide_eq_true_2 by done; rewrite Hfit;
    unfold predict, predict_with; simpl;
    destruct (predict_refuses _ _) as [e|]; simpl; eauto;
    rewrite eligible_rows_all_null by done; simpl; eauto.
Qed.

End regressor_behaviour.

Lemma unknown_family_is_a_key_error_witness :
  ("SVM" ∉ ["LR"; "RF"; "LGBM"])
  ∧ (remote_multipredictor.regressor (H := reference_collaborators) "SVM" X3 X3
       y_train3 y_test3 0 st0).1 = Raise (KeyError "SVM").
Proof.
  assert ("SVM" ∉ ["LR"; "RF"; "LGBM"]) as Hm by compute_done.
  split; [exact Hm|].
  destruct (unknown_family_is_a_key_error (H := reference_collaborators) "SVM" X3 X3
              ["run"] y_train3 y_test3 0 st0 Hm) as (_ & Hremote & _).
  exact Hremote.
Defined.

Lemma class_weight_reaches_every_regressor_witness :
  regressor_class "RF" = Some RandomForestRegressor
  ∧ accepts (Collaborators := reference_collaborators) RandomForestRegressor "class_weight"
    = false
  ∧ (multipredictor.regressor (H := reference_collaborators) "RF" X3 X3
       y_train3 y_test3 0 st0).1
    = Raise (TypeError "__init__() got an unexpected keyword argument").
Proof.
  split; [reflexivity|]. split; [reflexivity|].
  apply (class_weight_reaches_every_regressor (H := reference_collaborators) "RF"
           RandomForestRegressor X3 X3 y_train3 y_test3 0 st0); reflexivity.
Defined.

Lemma caller_keyword_reaches_constructor_witness :
  regressor_class "LR" = Some LinearRegression
  ∧ deref st_depth 0 !! "max_depth" = Some (PyInt 3)
  ∧ accepts (Collaborators := reference_collaborators) LinearRegression "max_depth" = false
  ∧ (remote_multipredictor.regressor (H := reference_collaborators) "LR" X3 X3
       y_train3 y_test3 0 st_depth).1
    = Raise (TypeError "__init__() got an unexpected keyword argument").
Proof.
  split; [reflexivity|]. split; [reflexivity|]. split; [reflexivity|].
  destruct (caller_keyword_reaches_constructor (H := reference_collaborators) "LR"
              LinearRegression X3 X3 y_train3 y_test3 0 st_depth "max_depth" (PyInt 3))
    as [_ Hremote]; [reflexivity..|].
  exact Hremote.
Defined.

Lemma regressor_needs_a_labelled_test_row_witness :
  Forall (eq None) y_null3
  ∧ (remote_multipredictor.regressor (H := reference_collaborators) "LGBM" X3 X3
       y_train3 y_null3 0 st0).1 = Raise zero_samples.
Proof.
  assert (Forall (eq None) y_null3) as Hnull by (repeat constructor).
  split; [exact Hnull|].
  destruct (regressor_needs_a_labelled_test_row (H := reference_collaborators) "LGBM"
              LGBMRegressor X3 X3 y_train3 y_null3 0 st0)
    as (_ & _ & Hremote); [reflexivity|reflexivity|discriminate|reflexivity|exact Hnull|].
  destruct (Hremote _ eq_refl) as (e & Hpredict & Hr);
    [intros k v _; reflexivity|reflexivity|].
  vm_compute in Hpredict. injection Hpredict as <-. exact Hr.
Defined.


(** ** When [classifier] returns *)

Section classifier_behaviour.
Context `{Collaborators}.

Lemma classifier_models_native m c :
  native_classifier_class m = Some c →
  getitem multipredictor.classifier_models m
  = Ok (λ params, e ← new c params; Ok (native e)).
Proof.
  unfold native_classifier_class. repeat case_bool_decide; intros [= <-]; by subst.
Qed.

Lemma native_classifier_body c kwargs X (ys : list string) :
  is_ok (sw ← sample_weights ys;
         model ← (e ← new c kwargs; Ok (native e));
         ClassifierModel_fit model X ys sw) = true
  ↔ classifier_can_run c kwargs X ys.
Proof.
  unfold classifier_can_run.
  destruct (decide (Forall in_table ys)) as [Hys|Hys].
  - destruct (sample_weights_Ok ys Hys) as (ws & -> & Hw & _).
    apply Forall2_length in Hw. simpl.
    destruct (decide (constructible c kwargs)) as [Hc|Hc].
    + rewrite new_constructible by done. simpl. unfold fit, check_X_y, unfitted. simpl.
      destruct (fit_refuses _ _ _ _) as [e|] eqn:Hfit; simpl.
      { split; [done|]. intros (_ & _ & _ & _ & Hno). by rewrite Hno in Hfit. }
      destruct (rows X) as [|x r] eqn:Hr; simpl; [naive_solver|].
      case_bool_decide as Hlen; simpl; [naive_solver|].
      rewrite bool_decide_eq_true_2 by (simpl in *; lia). simpl.
      split; [|done]. intros _. split_and!; try done. by intros ws' [= <-].
    + rewrite new_not_constructible by done. simpl. naive_solver.
  - destruct (sample_weights_Raise ys Hys) as (label & _ & _ & ->). simpl. naive_solver.
Qed.

(** X7: for the families RF and LGBM, [classifier] of either script
    returns exactly when every label is in the weight table, the
    constructor of the family's class takes every effective keyword, the
    train frame has at least one row and as many rows as there are labels,
    and the library does not object to the weighted fit. *)
Theorem classifier_returns_iff m c X (ys : list string) p σ :
  native_classifier_class m = Some c →
  (is_ok (multipredictor.classifier m X ys p σ).1 = true
   ↔ classifier_can_run c (effective_params (multipredictor.classifier m X ys p) σ) X ys)
  ∧ (is_ok (remote_multipredictor.classifier m X ys p σ).1 = true
     ↔ classifier_can_run c
         (effective_params (remote_multipredictor.classifier m X ys p) σ) X ys).
Proof.
  intros Hm.
  assert (m ≠ "LR") as Hlr.
  { intros ->. unfold native_classifier_class in Hm.
    by rewrite !bool_decide_eq_false_2 in Hm. }
  rewrite classifier_effective, remote_classifier_effective.
  rewrite classifier_unfold, remote_classifier_unfold. simpl.
  rewrite bool_decide_eq_false_2 by done.
  change (getitem remote_multipredictor.classifier_models m)
    with (getitem multipredictor.classifier_models m).
  rewrite (classifier_models_native m c Hm).
  split; apply native_classifier_body.
Qed.
End classifier_behaviour.

Lemma constructible_empty_defaults :
  constructible (H := reference_collaborators) RandomForestClassifier (classifier_defaults ∅).
Proof.
  intros k v Hk. unfold classifier_defaults in Hk. simpl.
  destruct (decide (k = "random_state")) as [->|]; [reflexivity|].
  destruct (decide (k = "n_jobs")) as [->|]; [reflexivity|].
  by rewrite !setdefault_lookup_ne, lookup_empty in Hk.
Qed.

Lemma classifier_returns_iff_witness :
  native_classifier_class "RF" = Some RandomForestClassifier
  ∧ is_ok (remote_multipredictor.classifier (H := reference_collaborators) "RF" X2
             ["run"; "walk"] 0 st0).1 = true.
Proof.
  split; [reflexivity|].
  destruct (classifier_returns_iff (H := reference_collaborators) "RF"
              RandomForestClassifier X2 ["run"; "walk"] 0 st0) as [_ Hremote];
    [reflexivity|].
  apply Hremote. rewrite remote_classifier_effective.
  split_and!; [compute_done|apply constructible_empty_defaults|discriminate|reflexivity|].
  intros ws _. reflexivity.
Defined.

(** ** Null filtering in detail *)

Lemma is_not_null_Some (l : list float) : is_not_null (map Some l) = repeat true (length l).
Proof. unfold is_not_null. induction l; simpl; by f_equal. Qed.

Lemma filter_rows_all {A} (r : list A) : filter_rows r (repeat true (length r)) = Ok r.
Proof. induction r as [|x r IH]; simpl; [done|]. by rewrite IH. Qed.

Lemma filter_rows_pairing {A} (X : list A) (y : target) r :
  filter_rows X (is_not_null y) = Ok r →
  sublist r X
  ∧ zip r (map Some (eligible_labels y)) = filter (λ xv, is_Some xv.2) (zip X y).
Proof.
  revert y r. induction X as [|x X IH]; intros [|v y] r; simpl; try done.
  - intros [= <-]. by split.
  - destruct (filter_rows X (is_not_null y)) as [r'|e] eqn:Hr; simpl; [|done].
    destruct (IH _ _ Hr) as [Hsub Hzip]. unfold eligible_labels in *.
    destruct v as [v|]; intros [= <-]; simpl.
    + rewrite filter_cons_True by (simpl; eauto). split; [by constructor|].
      f_equal. exact Hzip.
    + rewrite filter_cons_False by (simpl; by intros [? ?]).
      split; [by constructor|exact Hzip].
Qed.

(** X8: null filtering is idempotent: filtering the filtered train (or
    test) pair once more by the null mask of its own filtered labels gives
    the same frame and the same labels. *)
Theorem null_filter_idempotent X (y : target) Xf yf :
  DataFrame_filter X (is_not_null y) = Ok Xf →
  filter_rows y (is_not_null y) = Ok yf →
  DataFrame_filter Xf (is_not_null yf) = Ok Xf
  ∧ filter_rows yf (is_not_null yf) = Ok yf.
Proof.
  unfold DataFrame_filter.
  destruct (filter_rows (rows X) (is_not_null y)) as [r|e] eqn:Hr; simpl; [|done].
  intros [= <-]. rewrite filter_labels. intros [= <-]. simpl.
  apply filter_rows_eligible in Hr as [-> Hlen].
  rewrite is_not_null_Some, <- (eligible_lengths _ _ Hlen), filter_rows_all. simpl.
  split; [done|].
  rewrite (eligible_lengths _ _ Hlen).
  replace (length (eligible_labels y)) with (length (map Some (eligible_labels y)))
    by apply length_map.
  apply filter_rows_all.
Qed.

(** X9: null filtering keeps the rows in their order, leaves the columns
    as they are, and keeps every remaining row next to its own label. *)
Theorem null_filter_keeps_order_and_pairing X (y : target) Xf yf :
  DataFrame_filter X (is_not_null y) = Ok Xf →
  filter_rows y (is_not_null y) = Ok yf →
  columns Xf = columns X
  ∧ sublist (rows Xf) (rows X)
  ∧ sublist yf y
  ∧ zip (rows Xf) yf = filter (λ xv, is_Some xv.2) (zip (rows X) y).
Proof.
  unfold DataFrame_filter.
  destruct (filter_rows (rows X) (is_not_null y)) as [r|e] eqn:Hr; simpl; [|done].
  intros [= <-] Hy. simpl.
  destruct (filter_rows_pairing _ _ _ Hr) as [Hsub Hzip].
  destruct (filter_rows_pairing _ _ _ Hy) as [Hsuby _].
  rewrite filter_labels in Hy. injection Hy as <-. by split_and!.
Qed.

Lemma null_filter_idempotent_witness :
  DataFrame_filter X3 (is_not_null y_train3) = Ok (eligible_frame X3 y_train3)
  ∧ filter_rows y_train3 (is_not_null y_train3) = Ok [Some 1%float; Some 2%float]
  ∧ DataFrame_filter (eligible_frame X3 y_train3) (is_not_null [Some 1%float; Some 2%float])
    = Ok (eligible_frame X3 y_train3).
Proof.
  split; [reflexivity|]. split; [reflexivity|].
  apply (null_filter_idempotent X3 y_train3 (eligible_frame X3 y_train3)
           [Some 1%float; Some 2%float]); reflexivity.
Defined.

Lemma null_filter_keeps_order_and_pairing_witness :
  DataFrame_filter X3 (is_not_null y_train3) = Ok (eligible_frame X3 y_train3)
  ∧ filter_rows y_train3 (is_not_null y_train3) = Ok [Some 1%float; Some 2%float]
  ∧ sublist (rows (eligible_frame X3 y_train3)) (rows X3).
Proof.
  split; [reflexivity|]. split; [reflexivity|].
  apply (null_filter_keeps_order_and_pairing X3 y_train3 (eligible_frame X3 y_train3)
           [Some 1%float; Some 2%float]); reflexivity.
Defined.

(** ** Feature importances in detail *)

Lemma result_map_Raise {A B} (f : A → result B) xs e :
  (∀ x, x ∈ xs → f x = Raise e ∨ ∃ y, f x = Ok y) →
  (∃ x, x ∈ xs ∧ f x = Raise e) →
  result_map f xs = Raise e.
Proof.
  induction xs as [|x xs IH]; intros Hall (x0 & Hin & Hx0); simpl.
  - by apply elem_of_nil in Hin.
  - destruct (Hall x) as [->|[y Hy]]; [apply elem_of_cons; by left|done|].
    rewrite Hy. simpl. rewrite IH; [done| |].
    + intros x' Hx'. apply Hall, elem_of_cons. by right.
    + apply elem_of_cons in Hin as [->|Hin]; [congruence|eauto].
Qed.

Lemma result_map_pure {A B} (f : A → result B) (g : A → B) xs :
  (∀ x, x ∈ xs → f x = Ok (g x)) → result_map f xs = Ok (map g xs).
Proof.
  induction xs as [|x xs IH]; intros Hf; simpl; [done|].
  rewrite Hf by (apply elem_of_cons; by left). simpl.
  rewrite IH; [done|]. intros x' Hx'. apply Hf, elem_of_cons. by right.
Qed.

Lemma importance_item_cases (indices : list nat) (names : list string) (fi : list Q) i :
  (j ← list_getitem indices i;
   name ← list_getitem names j;
   value ← list_getitem fi j;
   Ok (name, value)) = Raise IndexError
  ∨ ∃ kv, (j ← list_getitem indices i;
           name ← list_getitem names j;
           value ← list_getitem fi j;
           Ok (name, value)) = Ok kv.
Proof.
  unfold list_getitem. destruct (indices !! i) as [j|]; simpl; [|by left].
  destruct (names !! j); simpl; [|by left].
  destruct (fi !! j); simpl; [|by left]. right. eauto.
Qed.

Lemma map_nth_seq {A} (l : list A) (d : A) :
  map (λ i, nth i l d) (seq 0 (length l)) = l.
Proof.
  induction l as [|x l IH]; simpl; [done|]. f_equal.
  rewrite <- seq_shift, map_map. exact IH.
Qed.

Lemma map_pair_nth_seq (names : list string) (fi : list Q) :
  length names = length fi →
  map (λ j, (nth j names "", nth j fi 0%Q)) (seq 0 (length fi)) = zip names fi.
Proof.
  revert fi. induction names as [|x names IH]; intros [|v fi] Hlen; simpl in *; try done.
  f_equal. rewrite <- seq_shift, map_map. apply IH. lia.
Qed.

Section importances_detail.
Context `{Collaborators}.

(** X10: on a frame with fewer columns than the model has importances,
    [_feature_importances] of either script fails with an index error at the
    first importance whose column is missing. *)
Theorem feature_importances_needs_every_column (model : RegressorModel) (X_train : DataFrame) :
  tree_based (est_class model) = true →
  is_Some (fitted model) →
  (length (columns X_train) < length (feature_importances_ model))%nat →
  multipredictor._feature_importances model X_train = Raise IndexError
  ∧ remote_multipredictor._feature_importances model X_train = Raise IndexError.
Proof.
  intros Htree [f Hf] Hlen.
  change (remote_multipredictor._feature_importances model X_train)
    with (multipredictor._feature_importances model X_train).
  split; [|].
  all: unfold multipredictor._feature_importances, get_feature_importances_.
  all: rewrite Htree, Hf; simpl.
  all: set (fi := feature_importances_ model) in *.
  all: assert (rev (argsort fi) ≡ₚ seq 0 (length fi)) as Hperm
         by (by rewrite <- Permutation_rev, argsort_indices).
  all: rewrite (result_map_Raise _ _ IndexError); [done| |].
  all: try (intros i _; apply importance_item_cases).
  all: assert (length (columns X_train) ∈ rev (argsort fi)) as Hin
         by (rewrite Hperm; apply elem_of_seq; lia).
  all: apply list_elem_of_lookup in Hin as [i Hi].
  all: exists i; split;
         [apply elem_of_seq; apply lookup_lt_Some in Hi;
          rewrite Hperm, length_seq in Hi; lia|].
  all: unfold list_getitem; rewrite Hi; simpl.
  all: by rewrite (lookup_ge_None_2 (columns X_train)).
Qed.

(** X11: when the column names are distinct and there is one importance
    per column, the mapping that [_feature_importances] returns has exactly
    one entry per column: it is a rearrangement of the columns paired with
    their importances. *)
Theorem feature_importances_rank_every_column (model : RegressorModel) (X_train : DataFrame) :
  tree_based (est_class model) = true →
  is_Some (fitted model) →
  NoDup (columns X_train) →
  length (columns X_train) = length (feature_importances_ model) →
  ∃ d, multipredictor._feature_importances model X_train = Ok d
       ∧ remote_multipredictor._feature_importances model X_train = Ok d
       ∧ d ≡ₚ zip (columns X_train) (feature_importances_ model).
Proof.
  intros Htree [f Hf] Hnd Hlen.
  change (remote_multipredictor._feature_importances model X_train)
    with (multipredictor._feature_importances model X_train).
  unfold multipredictor._feature_importances, get_feature_importances_.
  rewrite Htree, Hf. simpl.
  set (fi := feature_importances_ model) in *. set (names := columns X_train) in *.
  set (indices := rev (argsort fi)).
  assert (indices ≡ₚ seq 0 (length fi)) as Hperm
    by (unfold indices; by rewrite <- Permutation_rev, argsort_indices).
  assert (length indices = length fi) as Hl by (by rewrite Hperm, length_seq).
  set (g := λ j : nat, (nth j names "", nth j fi 0%Q)).
  rewrite (result_map_pure _ (λ i, g (nth i indices 0))).
  2:{ intros i Hi. apply elem_of_seq in Hi as [_ Hi]. simpl in Hi.
      destruct (lookup_lt_is_Some_2 indices i) as [j Hj]; [lia|].
      assert (j < length fi)%nat as Hjn.
      { apply list_elem_of_lookup_2 in Hj. rewrite Hperm in Hj.
        apply elem_of_seq in Hj. lia. }
      destruct (lookup_lt_is_Some_2 names j) as [name Hname]; [lia|].
      destruct (lookup_lt_is_Some_2 fi j) as [v Hv]; [lia|].
      unfold list_getitem. rewrite Hj. simpl. rewrite Hname. simpl. rewrite Hv. simpl.
      unfold g. rewrite (nth_lookup_Some _ _ _ _ Hj), (nth_lookup_Some _ _ _ _ Hname),
        (nth_lookup_Some _ _ _ _ Hv). done. }
  simpl.
  assert (map (λ i, g (nth i indices 0)) (seq 0 (length fi)) = map g indices) as ->.
  { rewrite <- Hl, <- (map_map (λ i, nth i indices 0) g), map_nth_seq. done. }
  assert (map g indices ≡ₚ zip names fi) as Hitems.
  { rewrite Hperm. unfold g. by rewrite map_pair_nth_seq. }
  assert (NoDup (map g indices).*1) as Hkeys.
  { rewrite Hitems, fst_zip by lia. done. }
  rewrite (odict_of_items_id _ Hkeys).
  assert (NoDup (sorted_by_value_reverse (map g indices)).*1) as Hkeys'.
  { unfold sorted_by_value_reverse. by rewrite sort_by_perm. }
  rewrite (odict_of_items_id _ Hkeys').
  eexists. split; [done|]. split; [done|].
  unfold sorted_by_value_reverse. by rewrite sort_by_perm.
Qed.
End importances_detail.

Lemma feature_importances_needs_every_column_witness :
  tree_based (est_class forest2) = true
  ∧ is_Some (fitted forest2)
  ∧ multipredictor._feature_importances (H := reference_collaborators) forest2 X1col
    = Raise IndexError.
Proof.
  split; [reflexivity|]. split; [by eexists|].
  apply (feature_importances_needs_every_column (H := reference_collaborators) forest2 X1col);
    [reflexivity|by eexists|simpl; lia].
Defined.

Lemma feature_importances_rank_every_column_witness :
  NoDup (columns X2)
  ∧ ∃ d, multipredictor._feature_importances (H := reference_collaborators) forest2 X2 = Ok d
         ∧ d ≡ₚ zip (columns X2) [0%Q; 1%Q].
Proof.
  assert (NoDup (columns X2)) as Hnd by compute_done.
  split; [exact Hnd|].
  destruct (feature_importances_rank_every_column (H := reference_collaborators) forest2 X2)
    as (d & Hd & _ & Hperm); [reflexivity|by eexists|exact Hnd|reflexivity|].
  exists d. split; [exact Hd|exact Hperm].
Defined.

(** ** What the scripts append to the heap and to the log *)

Lemma appends_ret {A} P (a : A) : appends P (mret a).
Proof. intros σ. exists [], []. simpl. by rewrite !app_nil_r. Qed.

Lemma appends_lift {A} P (r : result A) : appends P (lift r).
Proof. intros σ. exists [], []. simpl. by rewrite !app_nil_r. Qed.

Lemma appends_emit P e : P e → appends P (emit e).
Proof.
  intros He σ. exists [], [e]. simpl. rewrite app_nil_r. split_and!; [done..|].
  by constructor.
Qed.

Lemma appends_dict_new P d : appends P (dict_new d).
Proof. intros σ. exists [d], []. simpl. by rewrite app_nil_r. Qed.

Lemma appends_bind {A B} P (m : M A) (f : A → M B) :
  appends P m → (∀ a, (∃ σ, (m σ).1 = Ok a) → appends P (f a)) → appends P (m ≫= f).
Proof.
  intros Hm Hf σ. unfold mbind, M_bind.
  destruct (Hm σ) as (h & evs & Hh & Hl & HP).
  destruct (m σ) as [[a|e] σ'] eqn:Hrun; simpl in *; [|eauto].
  assert (∃ σ0, (m σ0).1 = Ok a) as Hreach by (exists σ; by rewrite Hrun).
  destruct (Hf a Hreach σ') as (h' & evs' & Hh' & Hl' & HP').
  exists (h ++ h')%list, (evs ++ evs')%list.
  rewrite Hh', Hl', Hh, Hl, !app_assoc. split_and!; [done..|].
  by apply Forall_app.
Qed.

Lemma appends_alloc {A} P (m : M A) :
  (∀ σ, ∃ d, (m σ).2 = alloc σ d) → appends P m.
Proof.
  intros Hm σ. destruct (Hm σ) as [d ->]. exists [d], []. simpl. by rewrite app_nil_r.
Qed.

(** What an appending computation leaves in place. *)
Lemma appends_heap {A} P (m : M A) σ q c :
  appends P m → heap σ !! q = Some c → heap (m σ).2 !! q = Some c.
Proof.
  intros Hm Hq. destruct (Hm σ) as (h & evs & -> & _). by apply lookup_app_l_Some.
Qed.

Lemma appends_log {A} P (m : M A) σ ev :
  appends P m → ev ∈ log (m σ).2 → ev ∈ log σ ∨ P ev.
Proof.
  intros Hm. destruct (Hm σ) as (h & evs & _ & -> & HP).
  rewrite elem_of_app. intros [?|Hin]; [by left|right].
  by eapply Forall_forall in HP.
Qed.

Section appending.
Context `{Collaborators}.

Lemma appends_classifier P m X (ys : list string) p :
  appends P (multipredictor.classifier m X ys p)
  ∧ appends P (remote_multipredictor.classifier m X ys p).
Proof.
  split; apply appends_alloc; intros σ;
    rewrite ?classifier_unfold, ?remote_classifier_unfold; simpl; eauto.
Qed.

Lemma appends_regressor P m X Xt (y yt : target) p :
  appends P (multipredictor.regressor m X Xt y yt p)
  ∧ appends P (remote_multipredictor.regressor m X Xt y yt p).
Proof.
  split; apply appends_alloc; intros σ;
    rewrite ?regressor_unfold, ?remote_regressor_unfold; simpl; eauto.
Qed.

Lemma feature_importances_Ok_ranking model X d :
  multipredictor._feature_importances model X = Ok d → non_increasing d ∧ NoDup d.*1.
Proof.
  unfold multipredictor._feature_importances.
  destruct (get_feature_importances_ model) as [fi|]; simpl; [|done].
  destruct (result_map _ _) as [items|]; simpl; [|done]. intros [= <-].
  assert (NoDup (sorted_by_value_reverse (odict_of_items items)).*1) as Hnd.
  { unfold sorted_by_value_reverse. rewrite sort_by_perm. apply odict_of_items_NoDup. }
  rewrite (odict_of_items_id _ Hnd). split; [apply sorted_by_value_reverse_sorted|done].
Qed.
End appending.

Section scripts.
Context `{Collaborators}.

Lemma appends_regressor_script P m feature X Xt (y yt : target) hp :
  (∀ path, P (write_file path)) →
  (∀ path d, non_increasing d ∧ NoDup d.*1 → P (write_json path d)) →
  appends P (multipredictor._regressor_script m feature X Xt y yt hp)
  ∧ appends P (remote_multipredictor._regressor_script m feature X Xt y yt hp).
Proof.
  intros Hfile Hjson. split.
  - unfold multipredictor._regressor_script.
    apply appends_bind; [apply appends_regressor|]. intros [[ytf yp] model] _.
    apply appends_bind; [by apply appends_emit|]. intros _ _.
    apply appends_bind; [|intros; apply appends_ret].
    case_bool_decide; [|apply appends_ret].
    apply appends_bind; [apply appends_lift|]. intros d [σ Hd]. simpl in Hd.
    apply appends_bind; [|intros; apply appends_ret].
    apply appends_emit, Hjson. by apply (feature_importances_Ok_ranking model X).
  - unfold remote_multipredictor._regressor_script.
    apply appends_bind; [apply appends_regressor|]. intros [[yp sc] model] _.
    apply appends_bind; [by apply appends_emit|]. intros _ _.
    apply appends_bind; [|intros; apply appends_ret].
    case_bool_decide; [|apply appends_ret].
    apply appends_bind; [apply appends_lift|]. intros d [σ Hd]. simpl in Hd.
    apply appends_emit, Hjson. by apply (feature_importances_Ok_ranking model X).
Qed.

(** X12: every feature-importance file that [_regressor_script] of either
    script writes holds a ranking: each feature name once, the importances
    in non-increasing order. *)
Theorem importance_files_are_rankings m feature X Xt (y yt : target) hp σ path d :
  write_json path d ∈ log (multipredictor._regressor_script m feature X Xt y yt hp σ).2
  ∨ write_json path d
    ∈ log (remote_multipredictor._regressor_script m feature X Xt y yt hp σ).2 →
  write_json path d ∈ log σ ∨ (non_increasing d ∧ NoDup d.*1).
Proof.
  destruct (appends_regressor_script json_is_ranking m feature X Xt y yt hp)
    as [Hmulti Hremote]; [done..|].
  intros [Hin|Hin].
  - by apply (appends_log _ _ _ _ Hmulti) in Hin.
  - by apply (appends_log _ _ _ _ Hremote) in Hin.
Qed.
End scripts.

Lemma importance_files_are_rankings_witness :
  write_json "feature_importances_Speed.json" [("gyro_mean", 1%Q); ("acc_mean", 0%Q)]
    ∈ log (remote_multipredictor._regressor_script (H := reference_collaborators) "RF" "Speed"
             X3 X3 y_train3 y_test3 0 st0).2
  ∧ non_increasing [("gyro_mean", 1%Q); ("acc_mean", 0%Q)].
Proof.
  assert (write_json "feature_importances_Speed.json" [("gyro_mean", 1%Q); ("acc_mean", 0%Q)]
            ∈ log (remote_multipredictor._regressor_script (H := reference_collaborators)
                     "RF" "Speed" X3 X3 y_train3 y_test3 0 st0).2) as Hin.
  { vm_compute. apply elem_of_cons. right. apply elem_of_cons. by left. }
  split; [exact Hin|].
  destruct (importance_files_are_rankings (H := reference_collaborators) "RF" "Speed"
              X3 X3 y_train3 y_test3 0 st0 _ _ (or_intror Hin)) as [Hold|[Hsorted _]].
  - by apply elem_of_nil in Hold.
  - exact Hsorted.
Defined.

(** ** The regression runs of multipredictor.py *)

Section regression_runs.
Context `{Collaborators}.

Lemma regressor_script_five m feature X Xt (y yt : target) hp σ t :
  (multipredictor._regressor_script m feature X Xt y yt hp σ).1 = Ok t → length t = 5.
Proof.
  unfold multipredictor._regressor_script, mbind at 1, M_bind at 1.
  destruct (multipredictor.regressor m X Xt y yt hp σ) as [[[[ytf yp] model]|e] σ1];
    [|done].
  run_script; intros; by simplify_eq.
Qed.

(** The assignment of the five returned values to four names always fails. *)
Lemma regressor_run_raises run m feature X Xt (y yt : target) hp σ :
  ∃ e, multipredictor.regressor_run run m feature X Xt y yt hp σ
       = (Raise e, (multipredictor._regressor_script m feature X Xt y yt hp σ).2).
Proof.
  unfold multipredictor.regressor_run, mbind at 1, M_bind at 1.
  pose proof (regressor_script_five m feature X Xt y yt hp σ) as Hfive.
  destruct (multipredictor._regressor_script m feature X Xt y yt hp σ) as [[t|e] σ'];
    simpl in *; [|eauto].
  specialize (Hfive t eq_refl). unfold mbind at 1, M_bind at 1, lift.
  destruct t as [|? [|? [|? [|? [|? [|? ?]]]]]]; simpl in *; try done. eauto.
Qed.

Lemma appends_regressor_run P run m feature X Xt (y yt : target) hp :
  (∀ path, P (write_file path)) →
  (∀ path d, P (write_json path d)) →
  appends P (multipredictor.regressor_run run m feature X Xt y yt hp).
Proof.
  intros Hfile Hjson σ. destruct (regressor_run_raises run m feature X Xt y yt hp σ) as [e ->].
  destruct (appends_regressor_script P m feature X Xt y yt hp) as [Hscript _]; [auto..|].
  simpl. apply Hscript.
Qed.

Lemma appends_activity_run P model activity Xtr Xte (ytr yte : list string) hp :
  (∀ key, P (log_metric "activity classifier" key)) →
  (∀ path, P (log_artifact "activity classifier" path)) →
  (∀ path, P (write_file path)) →
  (∀ cm, P (info_confusion_matrix cm)) →
  appends P (multipredictor.activity_run model activity Xtr Xte ytr yte hp).
Proof.
  intros Hmetric Hartifact Hfile Hcm. unfold multipredictor.activity_run, confusion_matrix.
  repeat first
    [ apply appends_ret | apply appends_lift | by apply appends_emit
    | apply appends_classifier
    | apply appends_bind; [|intros ? _] ].
Qed.

(** X13: [main] of multipredictor.py never returns normally, whatever the
    data and the family: [_regressor_script] returns five values and the
    speed run assigns them to four names, so the run ends there with an
    exception at the latest.  No metric or artifact of a regression run is
    ever sent to the tracking store. *)
Theorem tracked_main_never_completes activity (s : multipredictor.Split) model σ :
  is_ok (multipredictor.main activity s model σ).1 = false
  ∧ ∀ ev, ev ∈ log (multipredictor.main activity s model σ).2 →
          regression_record ev → ev ∈ log σ.
Proof.
  split.
  - unfold multipredictor.main.
    destruct (if bool_decide (model = "LR") then _ else _) as [Xtr Xte].
    unfold mbind at 1, M_bind at 1, dict_new.
    unfold mbind at 1, M_bind at 1.
    destruct (multipredictor.activity_run _ _ _ _ _ _ _ _) as [[cm|e] σ1]; [|done].
    unfold mbind at 1, M_bind at 1.
    by destruct (regressor_run_raises "speed regressor" model "Speed" Xtr Xte
      (multipredictor.y2_train s) (multipredictor.y2_test s) (length (heap σ)) σ1) as [e ->].
  - assert (appends (λ ev, ¬ regression_record ev) (multipredictor.main activity s model))
      as Hmain.
    { unfold multipredictor.main.
      destruct (if bool_decide (model = "LR") then _ else _) as [Xtr Xte].
      apply appends_bind; [apply appends_dict_new|]. intros hp _.
      apply appends_bind; [apply appends_activity_run; simpl; auto|]. intros _ _.
      apply appends_bind; [apply appends_regressor_run; simpl; auto|]. intros _ _.
      apply appends_regressor_run; simpl; auto. }
    intros ev Hin Hrec. by destruct (appends_log _ _ _ _ Hmain Hin).
Qed.
End regression_runs.

(** ** [main] of both scripts *)

Section mains.
Context `{Collaborators}.

Lemma appends_remote_activity_run model activity Xtr Xte (ytr yte : list string) hp :
  appends (λ _, True)
    (remote_multipredictor.activity_run model activity Xtr Xte ytr yte hp).
Proof.
  unfold remote_multipredictor.activity_run, confusion_matrix.
  repeat first
    [ apply appends_ret | apply appends_lift | by apply appends_emit
    | apply appends_classifier
    | apply appends_bind; [|intros ? _] ].
Qed.

(** X14: in [main] of either script the dictionary [hyperparams] that is
    handed to every stage is still empty when the run ends, however it
    ends, and no dictionary that existed before the run has changed: every
    stage works on a copy of its own, so no default of one stage reaches
    another. *)
Theorem hyperparams_stay_empty activity (s : multipredictor.Split)
    (s' : remote_multipredictor.Split) model save σ :
  heap (multipredictor.main activity s model σ).2 !! length (heap σ) = Some ∅
  ∧ heap (remote_multipredictor.main activity s' model save σ).2 !! length (heap σ) = Some ∅
  ∧ ∀ q c, heap σ !! q = Some c →
      heap (multipredictor.main activity s model σ).2 !! q = Some c
      ∧ heap (remote_multipredictor.main activity s' model save σ).2 !! q = Some c.
Proof.
  assert (∀ q c, heap (alloc σ ∅) !! q = Some c →
    heap (multipredictor.main activity s model σ).2 !! q = Some c
    ∧ heap (remote_multipredictor.main activity s' model save σ).2 !! q = Some c) as Hkeep.
  { intros q c Hq. split.
    - unfold multipredictor.main.
      destruct (if bool_decide (model = "LR") then _ else _) as [Xtr Xte].
      unfold mbind at 1, M_bind at 1, dict_new. fold (alloc σ ∅).
      apply (appends_heap (λ _, True)); [|done].
      apply appends_bind; [by apply appends_activity_run|]. intros _ _.
      apply appends_bind; [by apply appends_regressor_run|]. intros _ _.
      by apply appends_regressor_run.
    - unfold remote_multipredictor.main.
      destruct (if bool_decide (model = "LR") then _ else _) as [Xtr Xte].
      unfold mbind at 1, M_bind at 1, dict_new. fold (alloc σ ∅).
      apply (appends_heap (λ _, True)); [|done].
      apply appends_bind; [apply appends_remote_activity_run|]. intros _ _.
      apply appends_bind; [by apply appends_emit|]. intros _ _.
      destruct save; [|apply appends_ret].
      apply appends_bind; [|intros; by apply appends_emit].
      case_bool_decide; [by apply appends_emit|apply appends_ret]. }
  split_and!.
  - apply Hkeep, lookup_new.
  - apply Hkeep, lookup_new.
  - intros q c Hq. by apply Hkeep, alloc_lookup_old.
Qed.

Lemma remote_lr_classifier_raises X (ys : list string) p σ :
  is_ok (remote_multipredictor.classifier "LR" X ys p σ).1 = false.
Proof.
  rewrite remote_classifier_unfold. simpl.
  destruct (sample_weights ys) as [sw|e]; simpl; [|done].
  destruct (new LogisticRegression _) as [e|e]; simpl; done.
Qed.

Lemma remote_activity_run_not_lr model activity Xtr Xte (ytr yte : list string) hp σ cm :
  (remote_multipredictor.activity_run model activity Xtr Xte ytr yte hp σ).1 = Ok cm →
  model ≠ "LR".
Proof.
  intros Hrun ->. pose proof (remote_lr_classifier_raises Xtr ytr hp σ) as Hlr.
  unfold remote_multipredictor.activity_run, mbind at 1, M_bind at 1 in Hrun.
  destruct (remote_multipredictor.classifier "LR" Xtr ytr hp σ) as [[a|e] σ1]; done.
Qed.

(** X15: [main] of remote_multipredictor.py ends as its activity block
    ends.  If the block raises, the run raises the same exception and
    writes nothing more, in particular no output.json; if the block returns,
    the run returns after writing output.json and, when [save] is set,
    activity.pkl.  The file scaler.pkl is never written: the only family
    with a scaler is LR, and for LR the block never returns. *)
Theorem local_main_outcome activity (s : remote_multipredictor.Split) model save σ :
  let scaled := if bool_decide (model = "LR")
                then standard_scaler (remote_multipredictor.X_train s)
                       (remote_multipredictor.X_test s)
                else (remote_multipredictor.X_train s, remote_multipredictor.X_test s) in
  let block :=
    remote_multipredictor.activity_run model activity scaled.1 scaled.2
      (remote_multipredictor.y1_train s) (remote_multipredictor.y1_test s)
      (length (heap σ)) (alloc σ ∅) in
  remote_multipredictor.main activity s model save σ
  = match block.1 with
    | Raise e => (Raise e, block.2)
    | Ok _ =>
        (Ok (), {| heap := heap block.2;
                   log := log block.2 ++ write_file "output.json"
                            :: (if save then [write_file "activity.pkl"] else []) |})
    end.
Proof.
  intros scaled block. unfold remote_multipredictor.main. fold scaled.
  destruct scaled as [Xtr Xte] eqn:Hscaled.
  unfold mbind at 1, M_bind at 1, dict_new. fold (alloc σ ∅). simpl in block.
  unfold mbind at 1, M_bind at 1. fold block.
  pose proof (remote_activity_run_not_lr model activity Xtr Xte
    (remote_multipredictor.y1_train s) (remote_multipredictor.y1_test s)
    (length (heap σ)) (alloc σ ∅)) as Hlr. fold block in Hlr.
  destruct block as [[cm|e] σ1]; simpl in *; [|done].
  specialize (Hlr cm eq_refl).
  unfold mbind, M_bind, emit, mret, M_ret. simpl.
  destruct save; simpl; [|done].
  rewrite bool_decide_eq_false_2 by done. simpl. by rewrite <- app_assoc.
Qed.
End mains.

(** ** The components of the column names *)

Section components_of_names.
Context `{Patterns}.

Lemma add_components_elem c key x :
  (x ∈ statistic (add_components c key)
   ↔ x ∈ statistic c ∨ x ∈ statistic (key_components key))
  ∧ (x ∈ measure (add_components c key)
     ↔ x ∈ measure c ∨ x ∈ measure (key_components key))
  ∧ (x ∈ location (add_components c key)
     ↔ x ∈ location c ∨ x ∈ location (key_components key))
  ∧ (x ∈ dimension (add_components c key)
     ↔ x ∈ dimension c ∨ x ∈ dimension (key_components key)).
Proof.
  unfold key_components, add_components.
  destruct (imu_pattern_match key) as [[[[stat meas] loc] dim]|];
    [|destruct (foot_sensor_pattern_match key) as [[stat loc]|]];
    simpl; set_solver.
Qed.

Lemma fold_components_elem c names x :
  (x ∈ statistic (foldl add_components c names)
   ↔ x ∈ statistic c ∨ ∃ key, key ∈ names ∧ x ∈ statistic (key_components key))
  ∧ (x ∈ measure (foldl add_components c names)
     ↔ x ∈ measure c ∨ ∃ key, key ∈ names ∧ x ∈ measure (key_components key))
  ∧ (x ∈ location (foldl add_components c names)
     ↔ x ∈ location c ∨ ∃ key, key ∈ names ∧ x ∈ location (key_components key))
  ∧ (x ∈ dimension (foldl add_components c names)
     ↔ x ∈ dimension c ∨ ∃ key, key ∈ names ∧ x ∈ dimension (key_components key)).
Proof.
  revert c. induction names as [|a names IH]; intros c; simpl.
  - split_and!; (split; [by left|]); intros [?|(key & Hin & _)]; try done;
      by apply elem_of_nil in Hin.
  - destruct (IH (add_components c a)) as (Hs & Hm & Hl & Hd).
    destruct (add_components_elem c a x) as (Hs' & Hm' & Hl' & Hd').
    rewrite Hs, Hm, Hl, Hd, Hs', Hm', Hl', Hd'.
    split_and!; setoid_rewrite elem_of_cons; naive_solver.
Qed.

(** X16: the four sets that [main] logs are the unions of what the single
    column names contribute.  A name that the IMU pattern matches
    contributes its four groups, and the foot-sensor pattern is not
    consulted for it; a name that only the foot-sensor pattern matches
    contributes a statistic and a location; measures and dimensions come
    from IMU names alone, and a name that neither pattern matches
    contributes nothing. *)
Theorem components_are_unions_over_names names x :
  (x ∈ statistic (column_components names)
   ↔ ∃ key, key ∈ names
       ∧ ((∃ meas loc dim, imu_pattern_match key = Some (x, meas, loc, dim))
          ∨ (imu_pattern_match key = None
             ∧ ∃ loc, foot_sensor_pattern_match key = Some (x, loc))))
  ∧ (x ∈ measure (column_components names)
     ↔ ∃ key stat loc dim, key ∈ names
         ∧ imu_pattern_match key = Some (stat, x, loc, dim))
  ∧ (x ∈ location (column_components names)
     ↔ ∃ key, key ∈ names
         ∧ ((∃ stat meas dim, imu_pattern_match key = Some (stat, meas, x, dim))
            ∨ (imu_pattern_match key = None
               ∧ ∃ stat, foot_sensor_pattern_match key = Some (stat, x))))
  ∧ (x ∈ dimension (column_components names)
     ↔ ∃ key stat meas loc, key ∈ names
         ∧ imu_pattern_match key = Some (stat, meas, loc, x)).
Proof.
  unfold column_components.
  destruct (fold_components_elem no_components names x) as (Hs & Hm & Hl & Hd).
  rewrite Hs, Hm, Hl, Hd. simpl. unfold key_components, add_components.
  split_and!; (split; [intros [Hin|(key & Hin & Hx)]; [set_solver|]
                      |intros Hx; right]).
  - exists key. split; [done|]. revert Hx.
    destruct (imu_pattern_match key) as [[[[stat meas] loc] dim]|];
      [|destruct (foot_sensor_pattern_match key) as [[stat loc]|]];
      simpl; set_solver.
  - destruct Hx as (key & Hin & Hx). exists key. split; [done|].
    destruct Hx as [(meas & loc & dim & ->)|(-> & loc & ->)]; simpl; set_solver.
  - revert Hx. destruct (imu_pattern_match key) as [[[[stat meas] loc] dim]|] eqn:Himu;
      [|destruct (foot_sensor_pattern_match key) as [[stat loc]|]];
      simpl; [|set_solver..].
    intros Hx. exists key, stat, loc, dim. split; [done|]. set_solver.
  - destruct Hx as (key & stat & loc & dim & Hin & Hx). exists key. split; [done|].
    rewrite Hx. simpl. set_solver.
  - exists key. split; [done|]. revert Hx.
    destruct (imu_pattern_match key) as [[[[stat meas] loc] dim]|];
      [|destruct (foot_sensor_pattern_match key) as [[stat loc]|]];
      simpl; set_solver.
  - destruct Hx as (key & Hin & Hx). exists key. split; [done|].
    destruct Hx as [(stat & meas & dim & ->)|(-> & stat & ->)]; simpl; set_solver.
  - revert Hx. destruct (imu_pattern_match key) as [[[[stat meas] loc] dim]|] eqn:Himu;
      [|destruct (foot_sensor_pattern_match key) as [[stat loc]|]];
      simpl; [|set_solver..].
    intros Hx. exists key, stat, meas, loc. split; [done|]. set_solver.
  - destruct Hx as (key & stat & meas & loc & Hin & Hx). exists key. split; [done|].
    rewrite Hx. simpl. set_solver.
Qed.

(** X17: the four sets depend on which column names occur, not on their
    order or on how often a name occurs. *)
Theorem components_ignore_order_and_repetition names names' :
  (∀ key, key ∈ names ↔ key ∈ names') →
  column_components names = column_components names'.
Proof.
  intros Hsame. unfold column_components.
  assert (∀ c c', statistic c = statistic c' → measure c = measure c' →
            location c = location c' → dimension c = dimension c' → c = c') as Hext.
  { intros [] []; simpl; by intros -> -> -> ->. }
  apply Hext; apply set_eq; intros x.
  all: destruct (fold_components_elem no_components names x) as (Hs & Hm & Hl & Hd).
  all: destruct (fold_components_elem no_components names' x) as (Hs' & Hm' & Hl' & Hd').
  - rewrite Hs, Hs'. by setoid_rewrite Hsame.
  - rewrite Hm, Hm'. by setoid_rewrite Hsame.
  - rewrite Hl, Hl'. by setoid_rewrite Hsame.
  - rewrite Hd, Hd'. by setoid_rewrite Hsame.
Qed.
End components_of_names.

Lemma components_ignore_order_and_repetition_witness :
  (∀ key, key ∈ ["mean_acc_foot_x"; "max_left"]
          ↔ key ∈ ["max_left"; "mean_acc_foot_x"; "max_left"])
  ∧ column_components (H := example_patterns) ["mean_acc_foot_x"; "max_left"]
    = column_components (H := example_patterns) ["max_left"; "mean_acc_foot_x"; "max_left"].
Proof.
  assert (∀ key, key ∈ ["mean_acc_foot_x"; "max_left"]
                 ↔ key ∈ ["max_left"; "mean_acc_foot_x"; "max_left"]) as Hsame.
  { intros key. rewrite !elem_of_cons, !elem_of_nil. tauto. }
  split; [exact Hsame|].
  exact (components_ignore_order_and_repetition (H := example_patterns) _ _ Hsame).
Defined.

(** ** Files of [_regressor_script] *)

Section script_outcome.
Context `{Collaborators}.

Lemma appends_regressor_script_plain P m feature X Xt (y yt : target) hp :
  m ≠ "LGBM" → m ≠ "RF" →
  (∀ path, P (write_file path)) →
  appends P (multipredictor._regressor_script m feature X Xt y yt hp)
  ∧ appends P (remote_multipredictor._regressor_script m feature X Xt y yt hp).
Proof.
  intros Hlgbm Hrf Hfile. split.
  - unfold multipredictor._regressor_script.
    apply appends_bind; [apply appends_regressor|]. intros [[ytf yp] model] _.
    apply appends_bind; [by apply appends_emit|]. intros _ _.
    apply appends_bind; [|intros; apply appends_ret].
    rewrite bool_decide_eq_false_2 by naive_solver. apply appends_ret.
  - unfold remote_multipredictor._regressor_script.
    apply appends_bind; [apply appends_regressor|]. intros [[yp sc] model] _.
    apply appends_bind; [by apply appends_emit|]. intros _ _.
    apply appends_bind; [|intros; apply appends_ret].
    rewrite bool_decide_eq_false_2 by naive_solver. apply appends_ret.
Qed.

(** X19: for a family other than LGBM and RF, [_regressor_script] of
    either script writes no feature-importance file; the only file it
    writes is the histogram. *)
Theorem linear_family_writes_no_importances m feature X Xt (y yt : target) hp σ ev :
  m ≠ "LGBM" → m ≠ "RF" →
  ev ∈ log (multipredictor._regressor_script m feature X Xt y yt hp σ).2
  ∨ ev ∈ log (remote_multipredictor._regressor_script m feature X Xt y yt hp σ).2 →
  ev ∈ log σ ∨ ∃ path, ev = write_file path.
Proof.
  intros Hlgbm Hrf.
  destruct (appends_regressor_script_plain (λ ev, ∃ path, ev = write_file path)
              m feature X Xt y yt hp) as [Hmulti Hremote]; [done|done|eauto|].
  intros [Hin|Hin].
  - by apply (appends_log _ _ _ _ Hmulti) in Hin.
  - by apply (appends_log _ _ _ _ Hremote) in Hin.
Qed.
End script_outcome.

Lemma linear_family_writes_no_importances_witness :
  "LR" ≠ "LGBM" ∧ "LR" ≠ "RF"
  ∧ write_file "Speed_hist.png"
      ∈ log (remote_multipredictor._regressor_script (H := reference_collaborators) "LR"
               "Speed" X3 X3 y_train3 y_test3 0 st0).2
  ∧ ∃ path, write_file "Speed_hist.png" = write_file path.
Proof.
  assert (write_file "Speed_hist.png"
            ∈ log (remote_multipredictor._regressor_script (H := reference_collaborators)
                     "LR" "Speed" X3 X3 y_train3 y_test3 0 st0).2) as Hin.
  { vm_compute. apply elem_of_cons. by left. }
  split; [discriminate|]. split; [discriminate|]. split; [exact Hin|].
  destruct (linear_family_writes_no_importances (H := reference_collaborators) "LR" "Speed"
              X3 X3 y_train3 y_test3 0 st0 (write_file "Speed_hist.png"))
    as [Hold|Hfile]; [discriminate|discriminate|by right| |exact Hfile].
  by apply elem_of_nil in Hold.
Defined.

(** ** Defaults applied twice *)

Lemma setdefault_present k v (d : gmap string pyval) :
  is_Some (d !! k) → setdefault k v d = d.
Proof. intros [v' Hk]. unfold setdefault. by rewrite Hk. Qed.

Lemma or_default_is_Some k v d eff : or_default k v d eff → is_Some (eff !! k).
Proof. unfold or_default. intros ->. eauto. Qed.

Lemma classifier_defaults_fixed d :
  classifier_defaults (classifier_defaults d) = classifier_defaults d.
Proof.
  destruct (classifier_defaults_ok d) as (_ & Hj & Hs).
  unfold classifier_defaults at 1.
  rewrite (setdefault_present "n_jobs") by by eapply or_default_is_Some.
  apply setdefault_present. by eapply or_default_is_Some.
Qed.

Lemma regressor_defaults_fixed m d eff :
  regressor_params_ok m d eff → regressor_defaults m eff = eff.
Proof.
  intros (_ & Hj & Hs & Hn). unfold regressor_defaults.
  destruct (decide (m = "LR")) as [->|Hlr].
  - rewrite (bool_decide_eq_false_2 ("LR" ≠ "LR")) by naive_solver.
    rewrite (bool_decide_eq_false_2 ("LR" = "RF")) by done.
    apply setdefault_present. by eapply or_default_is_Some.
  - rewrite (bool_decide_eq_true_2 (m ≠ "LR")) by done.
    rewrite (bool_decide_eq_false_2 (m = "LR")) in Hs by done.
    rewrite (setdefault_present "random_state") by by eapply or_default_is_Some.
    destruct (decide (m = "RF")) as [->|Hrf].
    + rewrite (bool_decide_eq_true_2 ("RF" = "RF")) in * by done. destruct Hn as [Hn Hd].
      rewrite (setdefault_present "n_estimators") by by eapply or_default_is_Some.
      rewrite (setdefault_present "max_depth") by by eapply or_default_is_Some.
      apply setdefault_present. by eapply or_default_is_Some.
    + rewrite (bool_decide_eq_false_2 (m = "RF")) by done.
      apply setdefault_present. by eapply or_default_is_Some.
Qed.

Section twice.
Context `{Collaborators}.

(** X20: the defaults are idempotent: a call that is handed the effective
    hyperparameters of an earlier call of the same function (and, for
    [regressor], the same family) builds its estimator from exactly these
    hyperparameters again. *)
Theorem defaults_are_idempotent m X Xt (ys : list string) (y yt : target) p σ
    X' Xt' (ys' : list string) (y' yt' : target) p' σ' :
  (deref σ' p' = effective_params (multipredictor.classifier m X ys p) σ →
   effective_params (multipredictor.classifier m X' ys' p') σ' = deref σ' p')
  ∧ (deref σ' p' = effective_params (remote_multipredictor.classifier m X ys p) σ →
     effective_params (remote_multipredictor.classifier m X' ys' p') σ' = deref σ' p')
  ∧ (deref σ' p' = effective_params (multipredictor.regressor m X Xt y yt p) σ →
     effective_params (multipredictor.regressor m X' Xt' y' yt' p') σ' = deref σ' p')
  ∧ (deref σ' p' = effective_params (remote_multipredictor.regressor m X Xt y yt p) σ →
     effective_params (remote_multipredictor.regressor m X' Xt' y' yt' p') σ' = deref σ' p').
Proof.
  rewrite !classifier_effective, !remote_classifier_effective,
    !regressor_effective, !remote_regressor_effective.
  split_and!; intros ->.
  - apply classifier_defaults_fixed.
  - apply classifier_defaults_fixed.
  - rewrite (regressor_defaults_fixed m (deref σ p))
      by apply regressor_params_ok_class_weight, regressor_defaults_ok.
    apply setdefault_present. rewrite setdefault_lookup. eauto.
  - apply (regressor_defaults_fixed m (deref σ p)), regressor_defaults_ok.
Qed.
End twice.

Lemma defaults_are_idempotent_witness :
  deref (alloc st1 (regressor_defaults "RF" {["n_estimators" := PyInt 5]})) 1
  = effective_params
      (remote_multipredictor.regressor (H := reference_collaborators) "RF" X3 X3
         y_train3 y_test3 0) st1
  ∧ effective_params
      (remote_multipredictor.regressor (H := reference_collaborators) "RF" X2 X2
         y_first y_second 1)
      (alloc st1 (regressor_defaults "RF" {["n_estimators" := PyInt 5]}))
    = deref (alloc st1 (regressor_defaults "RF" {["n_estimators" := PyInt 5]})) 1.
Proof.
  assert (deref (alloc st1 (regressor_defaults "RF" {["n_estimators" := PyInt 5]})) 1
          = effective_params
              (remote_multipredictor.regressor (H := reference_collaborators) "RF" X3 X3
                 y_train3 y_test3 0) st1) as Heff.
  { rewrite remote_regressor_effective. reflexivity. }
  split; [exact Heff|].
  destruct (defaults_are_idempotent (H := reference_collaborators) "RF" X3 X3 ["run"]
              y_train3 y_test3 0 st1 X2 X2 ["run"] y_first y_second 1
              (alloc st1 (regressor_defaults "RF" {["n_estimators" := PyInt 5]})))
    as (_ & _ & _ & Hremote).
  exact (Hremote Heff).
Defined.

(** * Defaults, conditioning and stages: what the calls build and return *)

(** ** The estimator is built from the effective hyperparameters *)

Section built_from_effective.
Context `{Collaborators}.

Lemma classifier_models_kwargs m make kwargs model :
  getitem multipredictor.classifier_models m = Ok make →
  make kwargs = Ok model →
  classifier_kwargs model = kwargs.
Proof.
  assert (∀ c wrap, (∀ e, classifier_kwargs (wrap e) = est_params e) →
            (e ← new c kwargs; Ok (wrap e)) = Ok model → classifier_kwargs model = kwargs)
    as Hnew.
  { intros c wrap Hwrap. destruct (new c kwargs) as [e|] eqn:Hn; simpl; [|done].
    intros [= <-]. rewrite Hwrap. by apply new_Ok in Hn as ->. }
  unfold getitem, multipredictor.classifier_models.
  destruct (decide (m = "LR")) as [->|]; [intros [= <-]; by apply Hnew|].
  destruct (decide (m = "RF")) as [->|]; [intros [= <-]; by apply Hnew|].
  destruct (decide (m = "LGBM")) as [->|]; [intros [= <-]; by apply Hnew|].
  by rewrite !lookup_insert_ne, lookup_empty by done.
Qed.

Lemma ClassifierModel_fit_kwargs model X (ys : list string) sw model' :
  ClassifierModel_fit model X ys sw = Ok model' →
  classifier_kwargs model' = classifier_kwargs model.
Proof.
  destruct model as [o|e]; simpl; [done|].
  destruct (fit e _ _ _) as [e'|] eqn:Hfit; simpl; [|done]. intros [= <-].
  by apply fit_Ok in Hfit as (-> & _).
Qed.

Lemma classifier_body_kwargs m kwargs X (ys : list string) model :
  (sw ← sample_weights ys;
   make ← getitem multipredictor.classifier_models m;
   model ← make kwargs;
   ClassifierModel_fit model X ys sw) = Ok model →
  classifier_kwargs model = kwargs.
Proof.
  destruct (sample_weights ys) as [sw|]; simpl; [|done].
  destruct (getitem _ m) as [make|] eqn:Hmake; simpl; [|done].
  destruct (make kwargs) as [model0|] eqn:Hmodel; simpl; [|done].
  intros Hfit. apply ClassifierModel_fit_kwargs in Hfit as ->.
  by eapply classifier_models_kwargs.
Qed.

(** C3 (amended): defaults never replace an entry of the caller.  In both
    scripts the effective parameters of [classifier] are the caller's
    with [n_jobs = -1] and [random_state = 42] added where absent; those
    of [regressor] are the caller's with [n_jobs = -1] added where
    absent, [random_state = 42] added where absent for every family but
    LR (which gets no seed), and [n_estimators = 10], [max_depth = 10]
    added where absent for RF only.  A model that is returned, by
    [regressor] or by [classifier], was built with exactly these
    parameters as its keyword arguments. *)
Theorem defaults_only_where_absent m X Xt (ys : list string) (y yt : target) p σ :
  classifier_params_ok (deref σ p) (effective_params (multipredictor.classifier m X ys p) σ)
  ∧ regressor_params_ok m (deref σ p)
      (effective_params (multipredictor.regressor m X Xt y yt p) σ)
  ∧ classifier_params_ok (deref σ p)
      (effective_params (remote_multipredictor.classifier m X ys p) σ)
  ∧ regressor_params_ok m (deref σ p)
      (effective_params (remote_multipredictor.regressor m X Xt y yt p) σ)
  ∧ (∀ r, (multipredictor.regressor m X Xt y yt p σ).1 = Ok r →
       est_params r.2 = effective_params (multipredictor.regressor m X Xt y yt p) σ)
  ∧ (∀ r, (remote_multipredictor.regressor m X Xt y yt p σ).1 = Ok r →
       est_params r.2 = effective_params (remote_multipredictor.regressor m X Xt y yt p) σ)
  ∧ (∀ model, (multipredictor.classifier m X ys p σ).1 = Ok model →
       classifier_kwargs model = effective_params (multipredictor.classifier m X ys p) σ)
  ∧ (∀ model, (remote_multipredictor.classifier m X ys p σ).1 = Ok model →
       classifier_kwargs model
       = effective_params (remote_multipredictor.classifier m X ys p) σ).
Proof.
  rewrite classifier_effective, remote_classifier_effective,
    regressor_effective, remote_regressor_effective.
  split_and!.
  - apply classifier_defaults_ok.
  - apply regressor_params_ok_class_weight, regressor_defaults_ok.
  - apply classifier_defaults_ok.
  - apply regressor_defaults_ok.
  - intros [[ytf yp] model]. rewrite regressor_unfold. simpl.
    intros Hr. by apply fit_predict_params in Hr.
  - intros [[yp sc] model]. rewrite remote_regressor_unfold. simpl.
    destruct (fit_predict _ _ _ _ _ _) as [[[ytf yp'] model']|e] eqn:Hr; simpl; [|done].
    intros [= _ _ <-]. by apply fit_predict_params in Hr.
  - intros model. rewrite classifier_unfold. simpl. apply classifier_body_kwargs.
  - intros model. rewrite remote_classifier_unfold. simpl. case_bool_decide.
    + destruct (sample_weights ys) as [sw|]; simpl; [|done].
      destruct (new LogisticRegression _); simpl; done.
    + apply classifier_body_kwargs.
Qed.
End built_from_effective.

Lemma defaults_only_where_absent_witness :
  (∃ y_pred y_score model,
     (remote_multipredictor.regressor (H := reference_collaborators) "RF" X3 X3
        y_train3 y_test3 0 st1).1 = Ok (y_pred, y_score, model)
     ∧ est_class model = RandomForestRegressor
     ∧ est_params model !! "n_estimators" = Some (PyInt 5)
     ∧ est_params model !! "max_depth" = Some (PyInt 10))
  ∧ (∃ e,
       (multipredictor.classifier (H := reference_collaborators) "RF" X2
          ["run"; "walk"] 0 st1).1 = Ok (native e)
       ∧ est_params e !! "n_estimators" = Some (PyInt 5)
       ∧ est_params e !! "random_state" = Some (PyInt 42)).
Proof.
  destruct (defaults_only_where_absent (H := reference_collaborators) "RF" X3 X3
              ["run"; "walk"] y_train3 y_test3 0 st1)
    as (_ & _ & _ & ((Hkeep & _ & _ & _ & Hdepth) & Hreg)).
  destruct (defaults_only_where_absent (H := reference_collaborators) "RF" X2 X2
              ["run"; "walk"] y_train3 y_test3 0 st1)
    as ((Hkeep' & _ & Hseed) & _ & _ & _ & _ & _ & Hcls & _).
  split.
  - assert (∃ r, (remote_multipredictor.regressor (H := reference_collaborators) "RF" X3 X3
                    y_train3 y_test3 0 st1).1 = Ok r) as [[[y_pred y_score] model] Hr]
      by (eexists; vm_compute; reflexivity).
    destruct Hreg as [_ [Hreg _]]. pose proof (Hreg _ Hr) as Hparams. simpl in Hparams.
    exists y_pred, y_score, model. rewrite Hparams.
    split_and!; [exact Hr| |by apply Hkeep|exact Hdepth].
    vm_compute in Hr. by injection Hr as _ _ <-.
  - assert (∃ e, (multipredictor.classifier (H := reference_collaborators) "RF" X2
                    ["run"; "walk"] 0 st1).1 = Ok (native e)) as [e Hr]
      by (eexists; vm_compute; reflexivity).
    pose proof (Hcls _ Hr) as Hparams. simpl in Hparams.
    exists e. rewrite Hparams. split_and!; [exact Hr|by apply Hkeep'|exact Hseed].
Defined.

(** ** What [regressor] fits on and predicts for *)

Section conditioned_regressor.
Context `{Collaborators}.


End conditioned_regressor.




(** ** The matrix of the activity stage *)

Section matrix.
Context `{Collaborators}.

Lemma native_classifier_runs m c X (ys : list string) p σ ws :
  native_classifier_class m = Some c →
  classifier_can_run c (classifier_defaults (deref σ p)) X ys →
  sample_weights ys = Ok ws →
  multipredictor.classifier m X ys p σ
  = (Ok (native (fitted_classifier c (classifier_defaults (deref σ p)) X ys ws)),
     alloc σ (classifier_defaults (deref σ p)))
  ∧ remote_multipredictor.classifier m X ys p σ
    = (Ok (native (fitted_classifier c (classifier_defaults (deref σ p)) X ys ws)),
       alloc σ (classifier_defaults (deref σ p))).
Proof.
  intros Hm (Hys & Hc & Hrows & Hlen & Hfit) Hws.
  assert (m ≠ "LR") as Hlr.
  { intros ->. unfold native_classifier_class in Hm.
    by rewrite !bool_decide_eq_false_2 in Hm. }
  assert (length ws = length ys) as Hw.
  { destruct (sample_weights_Ok ys Hys) as (ws' & Hws' & H2 & _).
    rewrite Hws in Hws'. injection Hws' as <-. symmetry. by eapply Forall2_length. }
  rewrite classifier_unfold, remote_classifier_unfold.
  rewrite bool_decide_eq_false_2 by done.
  change (getitem remote_multipredictor.classifier_models m)
    with (getitem multipredictor.classifier_models m).
  rewrite (classifier_models_native m c Hm), Hws. simpl.
  rewrite new_constructible by done. simpl.
  unfold fit, check_X_y. simpl.
  specialize (Hfit ws Hws). unfold unfitted in Hfit. rewrite Hfit.
  rewrite (bool_decide_eq_false_2 (length (rows X) = 0)) by (by destruct (rows X)).
  rewrite (bool_decide_eq_false_2 (length (rows X) ≠ length ys)) by (intros Hne; by apply Hne).
  rewrite (bool_decide_eq_true_2 (length ws = length (rows X))) by congruence.
  done.
Qed.

Lemma fitted_classifier_predicts c kwargs X (ys : list string) ws Xt :
  rows Xt ≠ [] →
  predict_refuses (fitted_classifier c kwargs X ys ws) Xt = None →
  ClassifierModel_predict (native (fitted_classifier c kwargs X ys ws)) Xt
  = Ok (predict_labels (fitted_classifier c kwargs X ys ws) Xt).
Proof.
  intros Hrows Hpred. unfold ClassifierModel_predict, predict_with. simpl. rewrite Hpred.
  by rewrite bool_decide_eq_false_2 by (by destruct (rows Xt)).
Qed.

(** C7: the confusion matrix that the activity stage of either script
    produces is keyed by the distinct ACTIVITY values of the full data set
    in the order of their first occurrence, and has one row and one column
    per such label.  For the families RF and LGBM the stage of either
    script does produce it, the same in both, whenever the classifier can
    be fitted and can predict for the test frame. *)
Theorem confusion_matrix_keyed_by_first_occurrence
    model activity Xtr Xte (ytr yte : list string) hp σ :
  (∀ cm,
     (multipredictor.activity_run model activity Xtr Xte ytr yte hp σ).1 = Ok cm
     ∨ (remote_multipredictor.activity_run model activity Xtr Xte ytr yte hp σ).1 = Ok cm →
     cm_labels cm = unique_maintain_order activity
     ∧ first_occurrence_order (cm_labels cm) activity
     ∧ square_over_labels cm)
  ∧ (∀ c, native_classifier_class model = Some c →
       activity_can_run c
         (effective_params (multipredictor.classifier model Xtr ytr hp) σ) Xtr Xte ytr →
       ∃ cm,
         (multipredictor.activity_run model activity Xtr Xte ytr yte hp σ).1 = Ok cm
         ∧ (remote_multipredictor.activity_run model activity Xtr Xte ytr yte hp σ).1 = Ok cm
         ∧ cm_labels cm = unique_maintain_order activity
         ∧ length (cm_counts cm) = length (unique_maintain_order activity)).
Proof.
  split.
  - intros cm Hr. apply activity_run_Ok in Hr as [y_pred ->]. simpl.
    split_and!; [done|apply unique_maintain_order_spec|].
    unfold square_over_labels. simpl. rewrite length_map. split; [done|].
    apply Forall_forall. intros r Hr. apply list_elem_of_fmap in Hr as (t & -> & _).
    by rewrite length_map.
  - intros c Hc. rewrite classifier_effective. intros (Hrun & Hrows & Hpred).
    destruct (sample_weights_Ok ytr (proj1 Hrun)) as (ws & Hws & _).
    destruct (native_classifier_runs model c Xtr ytr hp σ ws Hc Hrun Hws) as [Hmulti Hremote].
    specialize (Hpred ws Hws).
    pose proof (fitted_classifier_predicts c _ Xtr ytr ws Xte Hrows Hpred) as Hlabels.
    unfold multipredictor.activity_run, remote_multipredictor.activity_run, confusion_matrix.
    unfold mbind, M_bind, lift, emit, mret, M_ret. rewrite Hmulti, Hremote, Hlabels. simpl.
    eexists. split_and!; [done..|]. simpl. by rewrite length_map.
Qed.
End matrix.

Lemma confusion_matrix_keyed_by_first_occurrence_witness :
  ∃ cm,
    (multipredictor.activity_run (H := reference_collaborators) "RF" activity4 X2 X2
       ["walk"; "run"] ["walk"; "jump"] 0 st0).1 = Ok cm
    ∧ (remote_multipredictor.activity_run (H := reference_collaborators) "RF" activity4 X2 X2
         ["walk"; "run"] ["walk"; "jump"] 0 st0).1 = Ok cm
    ∧ cm_labels cm = ["walk"; "run"; "jump"]
    ∧ square_over_labels cm.
Proof.
  destruct (confusion_matrix_keyed_by_first_occurrence (H := reference_collaborators)
              "RF" activity4 X2 X2 ["walk"; "run"] ["walk"; "jump"] 0 st0)
    as [Hkeyed Hruns].
  destruct (Hruns RandomForestClassifier eq_refl) as (cm & Hmulti & Hremote & _).
  { rewrite classifier_effective. split; [|split].
    - split_and!; [compute_done|apply constructible_empty_defaults|discriminate|
                   reflexivity|].
      intros ws _. reflexivity.
    - discriminate.
    - intros ws _. reflexivity. }
  destruct (Hkeyed cm (or_intror Hremote)) as (Hlabels & _ & Hsquare).
  exists cm. split_and!; [exact Hmulti|exact Hremote|exact Hlabels|exact Hsquare].
Defined.

(** ** A regression target without any eligible row *)

Section empty_target.
Context `{Collaborators}.



End empty_target.

